(** * EC2-compatible metadata endpoint of hegel: path resolution, filtering
      and rendering

    Shallow embedding of [internal/http/handler/ec2.go]:

    - [ec2Filters], the table from canonical path to jq filter;
    - [processEC2Query], which normalises a request path and looks it up;
    - [filterMetadata], which parses the filter, unmarshals the exported
      hardware, runs the query and renders the results;
    - [ec2MetadataHandler], the HTTP handler that composes them;
    - [getMetadataHandler], the handler of the unfiltered endpoint;
    - [getIPFromRequest], which takes the peer address of a request, with
      [net.SplitHostPort] modelled in [Module Net].

    The Go packages the file imports are not part of the repository.  The
    handler code is therefore written once over two interfaces ([JSONCodec]
    for [encoding/json], [QueryEngine] for [gojq]), and every property that
    only depends on the code of [ec2.go] is proved for all their
    implementations.  The properties that depend on what a filter of the
    table computes are proved for the models of the two packages given in
    [Module Json] and [Module Jq], which follow the packages' documented
    behaviour on the JSON grammar and on the part of the jq language the
    table uses. *)

From stdpp Require Import gmap strings list fin_maps sorting.
From Stdlib Require Import ZArith String Ascii Lia Bool DecimalString.

Local Open Scope string_scope.
Local Set Warnings "-register-all".

(** ** Go strings and byte slices

    A Go [string] and a [[]byte] are both sequences of bytes; both are
    modelled by [string] (a list of 8-bit characters).  A nil slice and an
    empty one are not told apart by any use in the handler, both are the
    empty string. *)

Definition LF : ascii := "010"%char.
Definition DQ : ascii := "034"%char.

(** The filters and documents of the source contain double quotes.  They
    are written here with an apostrophe in place of each double quote, and
    [go] puts the double quotes back; no string of the source contains an
    apostrophe. *)
Fixpoint go (s : string) : string :=
  match s with
  | EmptyString => EmptyString
  | String c s' => String (if Ascii.eqb c "'"%char then DQ else c) (go s')
  end.

Fixpoint strip_prefix (p s : string) : option string :=
  match p with
  | EmptyString => Some s
  | String a p' =>
      match s with
      | String b s' => if Ascii.eqb a b then strip_prefix p' s' else None
      | EmptyString => None
      end
  end.

(** [strings.TrimPrefix]: [s] without the leading [prefix], or [s] itself
    when it does not start with it. *)
Definition TrimPrefix (s prefix : string) : string :=
  match strip_prefix prefix s with
  | Some r => r
  | None => s
  end.

(** [bytes.TrimSuffix]: [s] without the trailing [suffix], or [s] itself
    when it does not end with it.  The suffix is removed once. *)
Fixpoint TrimSuffix (s suffix : string) : string :=
  match s with
  | EmptyString => EmptyString
  | String c s' =>
      if String.eqb s suffix then EmptyString else String c (TrimSuffix s' suffix)
  end.

Fixpoint ContainsRune (s : string) (r : ascii) : bool :=
  match s with
  | EmptyString => false
  | String c s' => Ascii.eqb c r || ContainsRune s' r
  end.

(** [strings.TrimRight]: [s] without every trailing byte that occurs in
    [cutset]. *)
Fixpoint TrimRight (s cutset : string) : string :=
  match s with
  | EmptyString => EmptyString
  | String c s' =>
      match TrimRight s' cutset with
      | EmptyString =>
          if ContainsRune cutset c then EmptyString else String c EmptyString
      | r => String c r
      end
  end.

(** ** Values, errors and result streams *)

(** A JSON number, kept as the exact decimal [mantissa * 10 ^ exponent].
    Go holds a decoded number in a [float64]; its rounding is not
    modelled. *)
Record number := Num { mantissa : Z; exponent : Z }.

(** The dynamic values [gojq] yields and [encoding/json] decodes into
    [interface{}]: nil, bool, number, string, [[]interface{}] and
    [map[string]interface{}].  A map is an association list; lookups take
    the first binding of a key. *)
Inductive value :=
| VNull
| VBool (b : bool)
| VNumber (n : number)
| VString (s : string)
| VArray (elems : list value)
| VObject (fields : list (string * value)).

Inductive error :=
| SyntaxError (msg : string)                 (* malformed JSON or jq text *)
| UnmarshalTypeError (got : string)          (* JSON value of the wrong kind *)
| UnsupportedValueError                      (* json.Marshal refuses the value *)
| ExpectedObject (v : value)                 (* gojq: field of a non-object *)
| CannotIterate (v : value)                  (* gojq: .[] of a scalar *)
| FuncTypeError (name : string) (v : value)  (* gojq: function on a wrong type *)
| BinopTypeError (op : string) (l r : value) (* gojq: operator on wrong types *)
| Errorf (msg : string)                      (* errors.Errorf *)
| Wrap (cause : error) (msg : string).       (* errors.Wrap *)

(** One result of [iter.Next()]: a value or an error. *)
Inductive item :=
| Yield (v : value)
| Fail (e : error).

(** ** The imported packages, as interfaces *)

(** [encoding/json]: [Unmarshal] into a [map[string]interface{}] and
    [Marshal] of a dynamic value. *)
Class JSONCodec := {
  Unmarshal : string -> error + list (string * value);
  Marshal : value -> error + string
}.

(** [gojq]: [Parse] of a filter and [Run] of the parsed query on an input.
    The iterator is the list of the items [Next] returns until it reports
    the end. *)
Class QueryEngine := {
  Query : Type;
  Parse : string -> error + Query;
  Run : Query -> value -> list item
}.

(** ** The filter table *)

Definition ec2Filters : gmap string string :=
  list_to_map [
    (EmptyString, go "'meta-data', 'user-data'");
    ("/user-data", ".metadata.userdata");
    ("/meta-data", go "['instance-id', 'hostname', 'local-hostname', 'iqn', 'plan', 'facility', 'tags', 'operating-system', 'public-keys', 'public-ipv4', 'public-ipv6', 'local-ipv4'] + (if .metadata.instance.spot != null then ['spot'] else [] end) | sort | .[]");
    ("/meta-data/instance-id", ".metadata.instance.id");
    ("/meta-data/hostname", ".metadata.instance.hostname");
    ("/meta-data/local-hostname", ".metadata.instance.hostname");
    ("/meta-data/iqn", ".metadata.instance.iqn");
    ("/meta-data/plan", ".metadata.instance.plan");
    ("/meta-data/facility", ".metadata.instance.facility");
    ("/meta-data/tags", ".metadata.instance.tags[]?");
    ("/meta-data/operating-system", go "['slug', 'distro', 'version', 'license_activation', 'image_tag'] | sort | .[]");
    ("/meta-data/operating-system/slug", ".metadata.instance.operating_system.slug");
    ("/meta-data/operating-system/distro", ".metadata.instance.operating_system.distro");
    ("/meta-data/operating-system/version", ".metadata.instance.operating_system.version");
    ("/meta-data/operating-system/license_activation", go "'state'");
    ("/meta-data/operating-system/license_activation/state", ".metadata.instance.operating_system.license_activation.state");
    ("/meta-data/operating-system/image_tag", ".metadata.instance.operating_system.image_tag");
    ("/meta-data/public-keys", ".metadata.instance.ssh_keys[]?");
    ("/meta-data/spot", go "'termination-time'");
    ("/meta-data/spot/termination-time", ".metadata.instance.spot.termination_time");
    ("/meta-data/public-ipv4", ".metadata.instance.network.addresses[]? | select(.address_family == 4 and .public == true) | .address");
    ("/meta-data/public-ipv6", ".metadata.instance.network.addresses[]? | select(.address_family == 6 and .public == true) | .address");
    ("/meta-data/local-ipv4", ".metadata.instance.network.addresses[]? | select(.address_family == 4 and .public == false) | .address")
  ].

(** ** processEC2Query *)

(** The lookup key of a request path, the local [query] of
    [processEC2Query]. *)
Definition canonicalPath (url : string) : string :=
  TrimRight (TrimPrefix url "/2009-04-04") "/".

Definition processEC2Query (url : string) : string * option error :=
  let query := canonicalPath url in
  match ec2Filters !! query with
  | None => (EmptyString, Some (Errorf ("invalid metadata item: " +:+ query)))
  | Some filter => (filter, None)
  end.

(** ** filterMetadata *)

Section Handler.
Context `{JSONCodec} `{QueryEngine}.

(** The [for] loop over the iterator, with the buffer [result] threaded
    through it, followed by the final [return]. *)
Fixpoint drain (iter : list item) (result : string) : string * option error :=
  match iter with
  | [] => (TrimSuffix result (String LF EmptyString), None)
  | Yield VNull :: iter' => drain iter' result
  | Fail vv :: _ => (EmptyString, Some (Wrap vv "error while filtering with gojq"))
  | Yield (VString vv) :: iter' =>
      drain iter' (result +:+ vv +:+ String LF EmptyString)
  | Yield vv :: iter' =>
      match Marshal vv with
      | inl err => (EmptyString, Some (Wrap err "error marshalling jq result"))
      | inr marshalled =>
          drain iter' (result +:+ marshalled +:+ String LF EmptyString)
      end
  end.

Definition filterMetadata (hw : string) (filter : string) : string * option error :=
  match Parse filter with
  | inl err => (EmptyString, Some err)
  | inr query =>
      match Unmarshal hw with
      | inl err => (EmptyString, Some err)
      | inr input => drain (Run query (VObject input)) EmptyString
      end
  end.

(** ** ec2MetadataHandler *)

(** What the handler does to the outside, in order: log lines, the
    request counter and the error counter, and the calls on the
    [http.ResponseWriter].  [EvFilterMetadata] marks a call of
    [filterMetadata]. *)
Inductive event :=
| EvLog (level msg : string) (err : option error)
| EvMetric (name : string)
| EvWriteHeader (status : nat)
| EvWrite (body : string)
| EvFilterMetadata (hw filter : string).

Record Request := {
  Method : string;
  RemoteAddr : string;
  URLPath : string
}.

(** [hardware.Client]: [ByIP] finds the hardware of a peer and [Export]
    gives its JSON document. *)
Context {Hardware : Type}.
Variable ByIP : string -> error + Hardware.
Variable Export : Hardware -> error + string.
(** The host part [net.SplitHostPort] returns (empty on an error). *)
Variable SplitHostPort : string -> string.

Definition getIPFromRequest (r : Request) : string :=
  let addr := RemoteAddr r in
  if ContainsRune addr ":"%char then SplitHostPort addr else addr.

(** The end of the handler, once the hardware is exported as [ehw]:
    resolve the path, run the filter, write the response. *)
Definition respond (ehw : string) (path : string) : list event :=
  match processEC2Query path with
  | (_, Some err) =>
      [EvLog "info" "failed to process ec2 query" (Some err);
       EvWriteHeader 404; EvWrite "404 not found"]
  | (filter, None) =>
      EvFilterMetadata ehw filter ::
      let '(resp, err) := filterMetadata ehw filter in
      match err with
      | Some e => [EvLog "info" "failed to filter metadata" (Some e)]
      | None => []
      end ++ [EvWrite resp]
  end.

Definition ec2MetadataHandler (r : Request) : list event :=
  if negb (String.eqb (Method r) "GET") then [EvWriteHeader 405]
  else
    EvLog "debug" "calling EC2MetadataHandler" None ::
    let userIP := getIPFromRequest r in
    if String.eqb userIP EmptyString then
      [EvLog "info" "Could not retrieve IP address" None]
    else
      EvMetric "metadata_requests" ::
      EvLog "info" "Retrieved IP peer IP" None ::
      match ByIP userIP with
      | inl err =>
          [EvMetric "errors"; EvLog "info" "failed to get hardware by ip" (Some err);
           EvWriteHeader 404]
      | inr hw =>
          match Export hw with
          | inl err =>
              [EvLog "info" "failed to export hardware" (Some err);
               EvWriteHeader 500; EvWrite "404 not found"]
          | inr ehw =>
              EvLog "debug" "Exported hardware" None :: respond ehw (URLPath r)
          end
      end.
End Handler.

(** ** A model of [encoding/json]

    [Unmarshal] follows the package's documented behaviour for a target of
    type [map[string]interface{}]: the input must be one JSON text
    (RFC 8259, nesting at most 10000 deep) surrounded by white space; an
    object fills the map, a later member replacing an earlier one of the
    same name; [null] leaves the target nil; an array, string, number or
    boolean is an [UnmarshalTypeError]; a number too large for a [float64]
    is an error too.  String contents are coerced to well-formed UTF-8.
    [Marshal] writes the compact text, object members in key order, with
    the HTML-safe escaping of strings that is the package's default. *)
Module Json.

Inductive result (A : Type) :=
| Ok (a : A) (rest : string)
| Err (e : error)
| Stuck.                        (* recursion budget exhausted *)
Arguments Ok {A} a rest.
Arguments Err {A} e.
Arguments Stuck {A}.

Definition code (c : ascii) : N := N_of_ascii c.

Definition is_space (c : ascii) : bool :=
  let n := code c in
  (n =? 32)%N || (n =? 9)%N || (n =? 13)%N || (n =? 10)%N.

Definition is_digit (c : ascii) : bool :=
  let n := code c in (48 <=? n)%N && (n <=? 57)%N.

Fixpoint skip_space (s : string) : string :=
  match s with
  | String c s' => if is_space c then skip_space s' else s
  | EmptyString => EmptyString
  end.

Definition hex_digit (c : ascii) : option N :=
  let n := code c in
  if (48 <=? n)%N && (n <=? 57)%N then Some (n - 48)%N
  else if (97 <=? n)%N && (n <=? 102)%N then Some (n - 87)%N
  else if (65 <=? n)%N && (n <=? 70)%N then Some (n - 55)%N
  else None.

Definition getu4 (h1 h2 h3 h4 : ascii) : option N :=
  match hex_digit h1, hex_digit h2, hex_digit h3, hex_digit h4 with
  | Some a, Some b, Some c, Some d => Some (((a * 16 + b) * 16 + c) * 16 + d)%N
  | _, _, _, _ => None
  end.

Definition byte (n : N) : ascii := ascii_of_N n.

(** [utf8.EncodeRune] for a Unicode scalar value. *)
Definition EncodeRune (r : N) : string :=
  if (r <? 128)%N then String (byte r) EmptyString
  else if (r <? 2048)%N then
    String (byte (192 + r / 64)) (String (byte (128 + r mod 64)) EmptyString)
  else if (r <? 65536)%N then
    String (byte (224 + r / 4096))
      (String (byte (128 + (r / 64) mod 64))
         (String (byte (128 + r mod 64)) EmptyString))
  else
    String (byte (240 + r / 262144))
      (String (byte (128 + (r / 4096) mod 64))
         (String (byte (128 + (r / 64) mod 64))
            (String (byte (128 + r mod 64)) EmptyString))).

Definition ReplacementChar : N := 65533.

Definition in_range (lo hi : N) (c : ascii) : bool :=
  (lo <=? code c)%N && (code c <=? hi)%N.

(** The number of continuation bytes of the well-formed UTF-8 sequence
    that starts with the lead byte [c] and goes on with [s]; [None] when
    there is no such sequence ([utf8.DecodeRune] returns [RuneError] and
    width 1). *)
Definition utf8_tail (c : ascii) (s : string) : option nat :=
  let n := code c in
  let cont := in_range 128 191 in
  match s with
  | String c1 s1 =>
      if in_range 194 223 c then (if cont c1 then Some 1%nat else None)
      else
        match s1 with
        | String c2 s2 =>
            let second3 :=
              if (n =? 224)%N then in_range 160 191 c1
              else if (n =? 237)%N then in_range 128 159 c1
              else in_range 225 239 c && cont c1 in
            if second3 && cont c2 && in_range 224 239 c then Some 2%nat
            else
              match s2 with
              | String c3 _ =>
                  let second4 :=
                    if (n =? 240)%N then in_range 144 191 c1
                    else if (n =? 244)%N then in_range 128 143 c1
                    else in_range 241 243 c && cont c1 in
                  if second4 && cont c2 && cont c3 then Some 3%nat else None
              | EmptyString => None
              end
        | EmptyString => None
        end
  | EmptyString => None
  end.

Definition simple_escape (e : ascii) : option ascii :=
  let n := code e in
  if (n =? 34)%N || (n =? 92)%N || (n =? 47)%N then Some e
  else if (n =? 98)%N then Some (byte 8)
  else if (n =? 102)%N then Some (byte 12)
  else if (n =? 110)%N then Some (byte 10)
  else if (n =? 114)%N then Some (byte 13)
  else if (n =? 116)%N then Some (byte 9)
  else None.

Definition prepend (p : string) (r : result string) : result string :=
  match r with
  | Ok a rest => Ok (p +:+ a) rest
  | other => other
  end.

Definition eof {A} : result A := Err (SyntaxError "unexpected end of JSON input").
Definition invalid {A} (where_ : string) : result A :=
  Err (SyntaxError ("invalid character " +:+ where_)).

(** The rest of a string literal after its opening quote, unquoted.
    [pending] counts the continuation bytes of a well-formed UTF-8
    sequence still to be copied. *)
Fixpoint scan_string (pending : nat) (s : string) : result string :=
  match s with
  | EmptyString => eof
  | String c r =>
      match pending with
      | S p => prepend (String c EmptyString) (scan_string p r)
      | O =>
          if (code c =? 34)%N then Ok EmptyString r
          else if (code c =? 92)%N then
            match r with
            | EmptyString => eof
            | String e r1 =>
                if (code e =? 117)%N then
                  match r1 with
                  | String h1 (String h2 (String h3 (String h4 r2))) =>
                      match getu4 h1 h2 h3 h4 with
                      | None => invalid "in \u hexadecimal character escape"
                      | Some rr =>
                          if (55296 <=? rr)%N && (rr <? 57344)%N then
                            match r2 with
                            | String b (String u (String k1 (String k2 (String k3 (String k4 r3))))) =>
                                match (if (code b =? 92)%N && (code u =? 117)%N
                                       then getu4 k1 k2 k3 k4 else None) with
                                | Some rr1 =>
                                    if (rr <? 56320)%N && (56320 <=? rr1)%N && (rr1 <? 57344)%N
                                    then prepend
                                           (EncodeRune ((rr - 55296) * 1024 + (rr1 - 56320) + 65536))
                                           (scan_string O r3)
                                    else prepend (EncodeRune ReplacementChar) (scan_string O r2)
                                | None => prepend (EncodeRune ReplacementChar) (scan_string O r2)
                                end
                            | _ => prepend (EncodeRune ReplacementChar) (scan_string O r2)
                            end
                          else prepend (EncodeRune rr) (scan_string O r2)
                      end
                  | _ => invalid "in \u hexadecimal character escape"
                  end
                else
                  match simple_escape e with
                  | Some ch => prepend (String ch EmptyString) (scan_string O r1)
                  | None => invalid "in string escape code"
                  end
            end
          else if (code c <? 32)%N then invalid "in string literal"
          else if (code c <? 128)%N then prepend (String c EmptyString) (scan_string O r)
          else
            match utf8_tail c r with
            | Some w => prepend (String c EmptyString) (scan_string w r)
            | None => prepend (EncodeRune ReplacementChar) (scan_string O r)
            end
      end
  end.

Fixpoint span_digits (s : string) : string * string :=
  match s with
  | String c s' =>
      if is_digit c then let '(d, r) := span_digits s' in (String c d, r)
      else (EmptyString, s)
  | EmptyString => (EmptyString, EmptyString)
  end.

Fixpoint digits_value (acc : Z) (d : string) : Z :=
  match d with
  | EmptyString => acc
  | String c d' => digits_value (10 * acc + (Z.of_N (code c) - 48))%Z d'
  end.

(** A number literal: an optional minus sign; the integer part, which is
    0 alone or digits not starting with 0; an optional fraction, a point
    and at least one digit; an optional exponent, e or E, an optional
    sign and at least one digit. *)
Definition scan_number (s : string) : result number :=
  let '(neg, s0) :=
    match s with
    | String c r => if (code c =? 45)%N then (true, r) else (false, s)
    | EmptyString => (false, s)
    end in
  let '(int, s1) :=
    match s0 with
    | String c r =>
        if (code c =? 48)%N then (String c EmptyString, r) else span_digits s0
    | EmptyString => (EmptyString, s0)
    end in
  match int with
  | EmptyString =>
      match s1 with EmptyString => eof | _ => invalid "in numeric literal" end
  | _ =>
      let frac :=
        match s1 with
        | String c r =>
            if (code c =? 46)%N then
              let '(f, r') := span_digits r in
              match f with
              | EmptyString =>
                  match r' with
                  | EmptyString => eof
                  | _ => invalid "after decimal point in numeric literal"
                  end
              | _ => Ok f r'
              end
            else Ok EmptyString s1
        | EmptyString => Ok EmptyString s1
        end in
      match frac with
      | Ok f s2 =>
          let expo :=
            match s2 with
            | String c r =>
                if (code c =? 101)%N || (code c =? 69)%N then
                  let '(eneg, r0) :=
                    match r with
                    | String g r' =>
                        if (code g =? 45)%N then (true, r')
                        else if (code g =? 43)%N then (false, r')
                        else (false, r)
                    | EmptyString => (false, r)
                    end in
                  let '(e, r') := span_digits r0 in
                  match e with
                  | EmptyString =>
                      match r' with
                      | EmptyString => eof
                      | _ => invalid "in exponent of numeric literal"
                      end
                  | _ => Ok (if eneg then (- digits_value 0 e)%Z else digits_value 0 e) r'
                  end
                else Ok 0%Z s2
            | EmptyString => Ok 0%Z s2
            end in
          match expo with
          | Ok x s3 =>
              let m := digits_value 0 (int +:+ f) in
              Ok (Num (if neg then (- m)%Z else m) (x - Z.of_nat (String.length f))) s3
          | Err e => Err e
          | Stuck => Stuck
          end
      | Err e => Err e
      | Stuck => Stuck
      end
  end.

(** A literal name ([true], [false], [null]) at the head of [s]. *)
Definition scan_literal (name : string) (v : value) (s : string) : result value :=
  match strip_prefix name s with
  | Some r => Ok v r
  | None =>
      if (String.length s <? String.length name)%nat && String.prefix s name
      then eof else invalid ("in literal " +:+ name)
  end.

Definition maxNestingDepth : N := 10000.

(** One JSON value at the head of [s], after optional white space, with
    [depth] containers open around it.  Objects keep their members as
    written. *)
Fixpoint scan_value (fuel : nat) (depth : N) (s : string) {struct fuel} : result value :=
  match fuel with
  | O => Stuck
  | S fuel' =>
      match skip_space s with
      | EmptyString => eof
      | String c r =>
          let n := code c in
          if (n =? 123)%N then
            if (maxNestingDepth <? depth + 1)%N then Err (SyntaxError "exceeded max depth")
            else
              match skip_space r with
              | String c' r' =>
                  if (code c' =? 125)%N then Ok (VObject []) r'
                  else scan_members fuel' (depth + 1) r []
              | EmptyString => eof
              end
          else if (n =? 91)%N then
            if (maxNestingDepth <? depth + 1)%N then Err (SyntaxError "exceeded max depth")
            else
              match skip_space r with
              | String c' r' =>
                  if (code c' =? 93)%N then Ok (VArray []) r'
                  else scan_elements fuel' (depth + 1) r []
              | EmptyString => eof
              end
          else if (n =? 34)%N then
            match scan_string O r with
            | Ok str r' => Ok (VString str) r'
            | Err e => Err e
            | Stuck => Stuck
            end
          else if (n =? 116)%N then scan_literal "true" (VBool true) (String c r)
          else if (n =? 102)%N then scan_literal "false" (VBool false) (String c r)
          else if (n =? 110)%N then scan_literal "null" VNull (String c r)
          else if (n =? 45)%N || is_digit c then
            match scan_number (String c r) with
            | Ok num r' => Ok (VNumber num) r'
            | Err e => Err e
            | Stuck => Stuck
            end
          else invalid "looking for beginning of value"
      end
  end
with scan_elements (fuel : nat) (depth : N) (s : string) (acc : list value)
       {struct fuel} : result value :=
  match fuel with
  | O => Stuck
  | S fuel' =>
      match scan_value fuel' depth s with
      | Ok v r =>
          match skip_space r with
          | String c r' =>
              if (code c =? 44)%N then scan_elements fuel' depth r' (acc ++ [v])
              else if (code c =? 93)%N then Ok (VArray (acc ++ [v])) r'
              else invalid "after array element"
          | EmptyString => eof
          end
      | other => other
      end
  end
with scan_members (fuel : nat) (depth : N) (s : string) (acc : list (string * value))
       {struct fuel} : result value :=
  match fuel with
  | O => Stuck
  | S fuel' =>
      match skip_space s with
      | String q r =>
          if (code q =? 34)%N then
            match scan_string O r with
            | Ok key r0 =>
                match skip_space r0 with
                | String c r1 =>
                    if (code c =? 58)%N then
                      match scan_value fuel' depth r1 with
                      | Ok v r2 =>
                          match skip_space r2 with
                          | String d r3 =>
                              if (code d =? 44)%N
                              then scan_members fuel' depth r3 (acc ++ [(key, v)])
                              else if (code d =? 125)%N
                              then Ok (VObject (acc ++ [(key, v)])) r3
                              else invalid "after object key:value pair"
                          | EmptyString => eof
                          end
                      | other => other
                      end
                    else invalid "after object key"
                | EmptyString => eof
                end
            | Err e => Err e
            | Stuck => Stuck
            end
          else invalid "looking for beginning of object key string"
      | EmptyString => eof
      end
  end.

(** A whole JSON text: one value, then only white space. *)
Definition scan_text (s : string) : result value :=
  match scan_value (2 * String.length s + 2) 0 s with
  | Ok v r =>
      match skip_space r with
      | EmptyString => Ok v EmptyString
      | _ => invalid "after top-level value"
      end
  | other => other
  end.
(** *** Maps

    An association list stands for the Go map obtained by storing its
    bindings from left to right: the last binding of a key is the one the
    map holds.  [members] lists the map in key order, which is the order
    in which [gojq] visits an object and [Marshal] writes it. *)

Fixpoint lookup (k : string) (fields : list (string * value)) : option value :=
  match fields with
  | [] => None
  | (k', x) :: fields' =>
      match lookup k fields' with
      | Some y => Some y
      | None => if String.eqb k' k then Some x else None
      end
  end.

Fixpoint set_field (k : string) (x : value) (sorted : list (string * value))
  : list (string * value) :=
  match sorted with
  | [] => [(k, x)]
  | (k', y) :: rest =>
      match String.compare k k' with
      | Lt => (k, x) :: (k', y) :: rest
      | Eq => (k, x) :: rest
      | Gt => (k', y) :: set_field k x rest
      end
  end.

Definition members (fields : list (string * value)) : list (string * value) :=
  fold_left (fun acc kv => set_field (fst kv) (snd kv) acc) fields [].

(** The same value with the members of every object in key order. *)
Fixpoint normalize (v : value) : value :=
  match v with
  | VArray elems => VArray (map normalize elems)
  | VObject fields =>
      VObject (fold_left (fun acc kv => set_field (fst kv) (normalize (snd kv)) acc)
                 fields [])
  | other => other
  end.

(** *** Unmarshal *)

(** [strconv.ParseFloat] reports a range error for a literal that rounds
    to an infinity: one of magnitude at least [2^1024 - 2^970]. *)
Definition overflows (n : number) : bool :=
  let limit := (2 ^ 1024 - 2 ^ 970)%Z in
  let m := Z.abs (mantissa n) in
  if (m =? 0)%Z then false
  else if (0 <=? exponent n)%Z then (limit <=? m * 10 ^ exponent n)%Z
  else (limit * 10 ^ (- exponent n) <=? m)%Z.

(** The first number of [v], in document order, that does not fit. *)
Fixpoint range_error (v : value) : option error :=
  match v with
  | VNumber n => if overflows n then Some (UnmarshalTypeError "number") else None
  | VArray elems =>
      fold_right (fun x rest =>
                    match range_error x with Some e => Some e | None => rest end)
        None elems
  | VObject fields =>
      fold_right (fun kv rest =>
                    match range_error (snd kv) with Some e => Some e | None => rest end)
        None fields
  | _ => None
  end.

Definition Unmarshal (data : string) : error + list (string * value) :=
  match scan_text data with
  | Ok (VObject fields) _ =>
      match range_error (VObject fields) with
      | Some e => inl e
      | None => inr fields
      end
  | Ok VNull _ => inr []
  | Ok (VBool _) _ => inl (UnmarshalTypeError "bool")
  | Ok (VNumber _) _ => inl (UnmarshalTypeError "number")
  | Ok (VString _) _ => inl (UnmarshalTypeError "string")
  | Ok (VArray _) _ => inl (UnmarshalTypeError "array")
  | Err e => inl e
  | Stuck => inl (SyntaxError "unexpected end of JSON input")
  end.

(** *** Marshal *)

Definition hex_char (n : N) : ascii :=
  if (n <? 10)%N then byte (48 + n) else byte (87 + n).

Definition BS : ascii := "092"%char.

Definition escape_u00 (n : N) : string :=
  String BS (String "u" (String "0" (String "0"
    (String (hex_char (n / 16)) (String (hex_char (n mod 16)) EmptyString))))).

(** The body of a string literal as the encoder writes it: quotes and
    backslashes escaped, control characters and the characters <, > and
    & as \u00XX (line feed, carriage return and tab by their short
    forms), U+2028 and U+2029 escaped, ill-formed UTF-8 replaced by
    �. *)
Fixpoint quote_body (pending : nat) (s : string) : string :=
  match s with
  | EmptyString => EmptyString
  | String c r =>
      match pending with
      | S p => String c (quote_body p r)
      | O =>
          let n := code c in
          if (n =? 34)%N || (n =? 92)%N then String BS (String c (quote_body O r))
          else if (n =? 10)%N then String BS (String "n" (quote_body O r))
          else if (n =? 13)%N then String BS (String "r" (quote_body O r))
          else if (n =? 9)%N then String BS (String "t" (quote_body O r))
          else if (n <? 32)%N || (n =? 60)%N || (n =? 62)%N || (n =? 38)%N
          then escape_u00 n +:+ quote_body O r
          else if (n <? 128)%N then String c (quote_body O r)
          else
            match utf8_tail c r with
            | None => String BS "ufffd" +:+ quote_body O r
            | Some w =>
                match r with
                | String c1 (String c2 r2) =>
                    if (n =? 226)%N && (code c1 =? 128)%N
                       && ((code c2 =? 168)%N || (code c2 =? 169)%N)
                    then String BS "u202"
                           +:+ String (if (code c2 =? 168)%N then "8" else "9")%char
                                 (quote_body O r2)
                    else String c (quote_body w r)
                | _ => String c (quote_body w r)
                end
            end
      end
  end.

Definition quote (s : string) : string :=
  String DQ (quote_body O s) +:+ String DQ EmptyString.

Fixpoint drop_zeros (s : string) : string * Z :=
  match s with
  | String c s' =>
      if (code c =? 48)%N then let '(r, k) := drop_zeros s' in (r, k + 1)%Z
      else (s, 0%Z)
  | EmptyString => (EmptyString, 0%Z)
  end.

Fixpoint zeros (n : nat) : string :=
  match n with
  | O => EmptyString
  | S n' => String "0" (zeros n')
  end.

Definition decimal (n : N) : string :=
  DecimalString.NilZero.string_of_uint (N.to_uint n).

(** The text of a number: plain decimal notation when its magnitude is
    at least 1e-6 and below 1e21, and the form d.ddde+x or d.ddde-x
    otherwise, with the digits of the exact decimal. *)
Definition format_number (n : number) : string :=
  if (mantissa n =? 0)%Z then "0"
  else
    let '(rev_digits, k) := drop_zeros (String.rev (decimal (Z.abs_N (mantissa n)))) in
    let digits := String.rev rev_digits in
    let len := Z.of_nat (String.length digits) in
    let x := (len + (exponent n + k) - 1)%Z in
    let sign := if (mantissa n <? 0)%Z then "-" else EmptyString in
    sign +:+
    (if (x <? -6)%Z || (21 <=? x)%Z then
       match digits with
       | String d rest =>
           String d (match rest with
                     | EmptyString => EmptyString
                     | _ => String "." rest
                     end)
           +:+ "e" +:+ (if (x <? 0)%Z then "-" else "+") +:+ decimal (Z.abs_N x)
       | EmptyString => EmptyString
       end
     else if (0 <=? x)%Z then
       let int_len := Z.to_nat (x + 1) in
       let padded := digits +:+ zeros (int_len - String.length digits) in
       let frac := String.substring int_len (String.length digits - int_len) digits in
       String.substring 0 int_len padded
       +:+ (match frac with
            | EmptyString => EmptyString
            | _ => String "." frac
            end)
     else "0." +:+ zeros (Z.to_nat (- x - 1)) +:+ digits).

Fixpoint join (sep : string) (parts : list string) : string :=
  match parts with
  | [] => EmptyString
  | [p] => p
  | p :: rest => p +:+ sep +:+ join sep rest
  end.

(** The text of a value whose objects are in key order. *)
Fixpoint encode (v : value) : string :=
  match v with
  | VNull => "null"
  | VBool true => "true"
  | VBool false => "false"
  | VNumber n => format_number n
  | VString s => quote s
  | VArray elems => "[" +:+ join "," (map encode elems) +:+ "]"
  | VObject fields =>
      "{" +:+ join "," (map (fun kv => quote (fst kv) +:+ ":" +:+ encode (snd kv)) fields)
      +:+ "}"
  end.

Definition Marshal (v : value) : error + string := inr (encode (normalize v)).

End Json.

#[export] Instance json_codec : JSONCodec :=
  {| Unmarshal := Json.Unmarshal; Marshal := Json.Marshal |}.

(** ** A model of [gojq]

    The part of the jq language the filter table is written in: the
    identity, field access [.name] and its chaining, iteration [[]], the
    postfix [?], string, number and [null]/[true]/[false] literals, array
    construction, [if ... then ... else ... end], parentheses, the
    functions [sort], [select(f)], [empty] and [not], and the operators
    [|], [,], [or], [and], [==], [!=] and [+] with the precedences of the
    jq grammar.  A filter that uses anything else is reported by [Parse]
    as unsupported; the model says nothing about it. *)
Module Jq.

(** *** Syntax *)

Inductive operator := OpPipe | OpComma | OpOr | OpAnd | OpEq | OpNe | OpAdd.

Inductive suffix :=
| SuffixIndex (name : string)   (* .name *)
| SuffixIter                    (* [] *)
| SuffixOptional.               (* ? *)

Inductive query :=
| Identity
| Index (name : string)
| Func (name : string) (arg : option query)
| Array (body : option query)
| Number (n : number)
| Str (s : string)
| Null
| TrueLit
| FalseLit
| If (cond then_ : query) (else_ : option query)
| Paren (q : query)
| WithSuffix (t : query) (s : suffix)
| Binary (l : query) (op : operator) (r : query).

(** *** Lexer *)

Inductive token :=
| TDot | TField (name : string) | TIdent (name : string)
| TString (s : string) | TNumber (n : number)
| TLBracket | TRBracket | TLParen | TRParen
| TPipe | TComma | TPlus | TEqEq | TNotEq | TQuestion.

Inductive lex_state :=
| LStart
| LDot                       (* after a dot *)
| LField (acc : string)      (* in the name after a dot *)
| LIdent (acc : string)
| LNumber (acc : string)
| LString (acc : string)
| LEq                        (* after = *)
| LBang.                     (* after ! *)

Definition is_ident_start (c : ascii) : bool :=
  let n := Json.code c in
  ((97 <=? n)%N && (n <=? 122)%N) || ((65 <=? n)%N && (n <=? 90)%N) || (n =? 95)%N.

Definition is_ident_part (c : ascii) : bool := is_ident_start c || Json.is_digit c.

Definition snoc (s : string) (c : ascii) : string := s +:+ String c EmptyString.

Definition number_token (acc : string) : option token :=
  match Json.scan_number acc with
  | Json.Ok n EmptyString => Some (TNumber n)
  | _ => None
  end.

(** The lexer at the start of a token. *)
Definition lex_start (c : ascii) : option (list token * lex_state) :=
  let n := Json.code c in
  if Json.is_space c then Some ([], LStart)
  else if (n =? 46)%N then Some ([], LDot)
  else if is_ident_start c then Some ([], LIdent (String c EmptyString))
  else if Json.is_digit c then Some ([], LNumber (String c EmptyString))
  else if (n =? 34)%N then Some ([], LString EmptyString)
  else if (n =? 91)%N then Some ([TLBracket], LStart)
  else if (n =? 93)%N then Some ([TRBracket], LStart)
  else if (n =? 40)%N then Some ([TLParen], LStart)
  else if (n =? 41)%N then Some ([TRParen], LStart)
  else if (n =? 124)%N then Some ([TPipe], LStart)
  else if (n =? 44)%N then Some ([TComma], LStart)
  else if (n =? 43)%N then Some ([TPlus], LStart)
  else if (n =? 63)%N then Some ([TQuestion], LStart)
  else if (n =? 61)%N then Some ([], LEq)
  else if (n =? 33)%N then Some ([], LBang)
  else None.

Definition emit_then (t : option token) (c : ascii) : option (list token * lex_state) :=
  match t, lex_start c with
  | Some t, Some (ts, st) => Some (t :: ts, st)
  | _, _ => None
  end.

Definition lex_step (st : lex_state) (c : ascii) : option (list token * lex_state) :=
  match st with
  | LStart => lex_start c
  | LDot =>
      if is_ident_start c then Some ([], LField (String c EmptyString))
      else if (Json.code c =? 46)%N || (Json.code c =? 34)%N then None
      else emit_then (Some TDot) c
  | LField acc =>
      if is_ident_part c then Some ([], LField (snoc acc c))
      else emit_then (Some (TField acc)) c
  | LIdent acc =>
      if is_ident_part c then Some ([], LIdent (snoc acc c))
      else if (Json.code c =? 58)%N then None
      else emit_then (Some (TIdent acc)) c
  | LNumber acc =>
      if Json.is_digit c || (Json.code c =? 46)%N then Some ([], LNumber (snoc acc c))
      else if is_ident_start c then None
      else emit_then (number_token acc) c
  | LString acc =>
      if (Json.code c =? 34)%N then Some ([TString acc], LStart)
      else if (Json.code c =? 92)%N then None
      else Some ([], LString (snoc acc c))
  | LEq => if (Json.code c =? 61)%N then Some ([TEqEq], LStart) else None
  | LBang => if (Json.code c =? 61)%N then Some ([TNotEq], LStart) else None
  end.

Definition lex_end (st : lex_state) : option (list token) :=
  match st with
  | LStart => Some []
  | LDot => Some [TDot]
  | LField acc => Some [TField acc]
  | LIdent acc => Some [TIdent acc]
  | LNumber acc => option_map (fun t => [t]) (number_token acc)
  | LString _ | LEq | LBang => None
  end.

Fixpoint lex (st : lex_state) (s : string) : option (list token) :=
  match s with
  | EmptyString => lex_end st
  | String c s' =>
      match lex_step st c with
      | Some (ts, st') => option_map (app ts) (lex st' s')
      | None => None
      end
  end.

(** *** Parser *)

(** The binary operator a token stands for, with its precedence level.
    [|] is right associative, [==] and [!=] do not associate, the others
    associate to the left. *)
Definition binary_operator (t : token) : option (operator * nat) :=
  match t with
  | TPipe => Some (OpPipe, 1)
  | TComma => Some (OpComma, 2)
  | TIdent w =>
      if String.eqb w "or" then Some (OpOr, 3)
      else if String.eqb w "and" then Some (OpAnd, 4)
      else None
  | TEqEq => Some (OpEq, 5)
  | TNotEq => Some (OpNe, 5)
  | TPlus => Some (OpAdd, 6)
  | _ => None
  end%nat.

Definition is_comparison (t : token) : bool :=
  match t with
  | TEqEq | TNotEq => true
  | _ => false
  end.

Definition is_keyword (name : string) : bool :=
  existsb (String.eqb name)
    ["if"; "then"; "elif"; "else"; "end"; "and"; "or"; "as"; "def"; "reduce";
     "foreach"; "try"; "catch"; "label"; "import"; "include"; "__loc__"].

(** The tokens after the word [w], when the tokens start with it. *)
Definition after_word (w : string) (ts : list token) : option (list token) :=
  match ts with
  | TIdent n :: ts' => if String.eqb n w then Some ts' else None
  | _ => None
  end.

(** The suffixes that follow a term. *)
Fixpoint parse_suffixes (t : query) (ts : list token) : query * list token :=
  match ts with
  | TField name :: ts' => parse_suffixes (WithSuffix t (SuffixIndex name)) ts'
  | TQuestion :: ts' => parse_suffixes (WithSuffix t SuffixOptional) ts'
  | TLBracket :: TRBracket :: ts' => parse_suffixes (WithSuffix t SuffixIter) ts'
  | _ => (t, ts)
  end.

(** [parse_query fuel level ts]: a query made of terms and of operators
    of precedence at least [level]; [parse_operators] goes on after the
    left operand [l]. *)
Fixpoint parse_query (fuel : nat) (level : nat) (ts : list token) {struct fuel}
  : option (query * list token) :=
  match fuel with
  | O => None
  | S fuel' =>
      match parse_term fuel' ts with
      | Some (l, ts') => parse_operators fuel' level l ts'
      | None => None
      end
  end
with parse_operators (fuel : nat) (level : nat) (l : query) (ts : list token)
       {struct fuel} : option (query * list token) :=
  match fuel with
  | O => None
  | S fuel' =>
      match ts with
      | t :: ts' =>
          match binary_operator t with
          | Some (op, p) =>
              if (level <=? p)%nat then
                match parse_query fuel' (if (p =? 1)%nat then p else S p) ts' with
                | Some (r, ts'') =>
                    if is_comparison t && match ts'' with
                                          | t2 :: _ => is_comparison t2
                                          | [] => false
                                          end
                    then None
                    else parse_operators fuel' level (Binary l op r) ts''
                | None => None
                end
              else Some (l, ts)
          | None => Some (l, ts)
          end
      | [] => Some (l, [])
      end
  end
with parse_term (fuel : nat) (ts : list token) {struct fuel}
  : option (query * list token) :=
  match fuel with
  | O => None
  | S fuel' =>
      match ts with
      | TDot :: ts' => Some (parse_suffixes Identity ts')
      | TField name :: ts' => Some (parse_suffixes (Index name) ts')
      | TString s :: ts' => Some (parse_suffixes (Str s) ts')
      | TNumber n :: ts' => Some (parse_suffixes (Number n) ts')
      | TLBracket :: TRBracket :: ts' => Some (parse_suffixes (Array None) ts')
      | TLBracket :: ts' =>
          match parse_query fuel' 1 ts' with
          | Some (q, TRBracket :: ts'') => Some (parse_suffixes (Array (Some q)) ts'')
          | _ => None
          end
      | TLParen :: ts' =>
          match parse_query fuel' 1 ts' with
          | Some (q, TRParen :: ts'') => Some (parse_suffixes (Paren q) ts'')
          | _ => None
          end
      | TIdent name :: ts' =>
          if String.eqb name "null" then Some (parse_suffixes Null ts')
          else if String.eqb name "true" then Some (parse_suffixes TrueLit ts')
          else if String.eqb name "false" then Some (parse_suffixes FalseLit ts')
          else if String.eqb name "if" then
            match parse_query fuel' 1 ts' with
            | Some (c, ts1) =>
                match after_word "then" ts1 with
                | Some ts2 =>
                    match parse_query fuel' 1 ts2 with
                    | Some (a, ts3) =>
                        match after_word "else" ts3, after_word "end" ts3 with
                        | Some ts4, _ =>
                            match parse_query fuel' 1 ts4 with
                            | Some (b, ts5) =>
                                match after_word "end" ts5 with
                                | Some ts6 => Some (parse_suffixes (If c a (Some b)) ts6)
                                | None => None
                                end
                            | None => None
                            end
                        | None, Some ts4 => Some (parse_suffixes (If c a None) ts4)
                        | None, None => None
                        end
                    | None => None
                    end
                | None => None
                end
            | None => None
            end
          else if is_keyword name then None
          else
            match ts' with
            | TLParen :: ts1 =>
                match parse_query fuel' 1 ts1 with
                | Some (a, TRParen :: ts2) =>
                    Some (parse_suffixes (Func name (Some a)) ts2)
                | _ => None
                end
            | _ => Some (parse_suffixes (Func name None) ts')
            end
      | _ => None
      end
  end.

Definition unsupported : error := Errorf "filter outside the modelled part of jq".

Definition Parse (filter : string) : error + query :=
  match lex LStart filter with
  | Some ts =>
      match parse_query (3 * List.length ts + 3) 1 ts with
      | Some (q, []) => inr q
      | _ => inl unsupported
      end
  | None => inl unsupported
  end.
(** *** Values *)

Definition truthy (v : value) : bool :=
  match v with
  | VNull | VBool false => false
  | _ => true
  end.

Definition compare_number (a b : number) : comparison :=
  if (exponent a <=? exponent b)%Z
  then (mantissa a ?= mantissa b * 10 ^ (exponent b - exponent a))%Z
  else (mantissa a * 10 ^ (exponent a - exponent b) ?= mantissa b)%Z.

Definition add_number (a b : number) : number :=
  if (exponent a <=? exponent b)%Z
  then Num (mantissa a + mantissa b * 10 ^ (exponent b - exponent a)) (exponent a)
  else Num (mantissa a * 10 ^ (exponent a - exponent b) + mantissa b) (exponent b).

Definition type_index (v : value) : N :=
  match v with
  | VNull => 0
  | VBool false => 1
  | VBool true => 2
  | VNumber _ => 3
  | VString _ => 4
  | VArray _ => 5
  | VObject _ => 6
  end.

Fixpoint compare_keys (f g : list (string * value)) : comparison :=
  match f, g with
  | [], [] => Eq
  | [], _ :: _ => Lt
  | _ :: _, [] => Gt
  | (k, _) :: f', (k', _) :: g' =>
      match String.compare k k' with
      | Eq => compare_keys f' g'
      | c => c
      end
  end.

(** The order of jq on values whose objects are in key order: by type
    (null, false, true, numbers, strings, arrays, objects), numbers by
    value, strings by bytes, arrays element by element, objects by their
    key lists and then by the values in key order. *)
Fixpoint compare_normal (l r : value) {struct l} : comparison :=
  match l, r with
  | VNumber a, VNumber b => compare_number a b
  | VString a, VString b => String.compare a b
  | VArray a, VArray b =>
      (fix elements (a b : list value) {struct a} : comparison :=
         match a, b with
         | [], [] => Eq
         | [], _ :: _ => Lt
         | _ :: _, [] => Gt
         | x :: a', y :: b' =>
             match compare_normal x y with
             | Eq => elements a' b'
             | c => c
             end
         end) a b
  | VObject f, VObject g =>
      match compare_keys f g with
      | Eq =>
          (fix fields (f g : list (string * value)) {struct f} : comparison :=
             match f, g with
             | (_, x) :: f', (_, y) :: g' =>
                 match compare_normal x y with
                 | Eq => fields f' g'
                 | c => c
                 end
             | _, _ => Eq
             end) f g
      | c => c
      end
  | _, _ => (type_index l ?= type_index r)%N
  end.

Definition compare (l r : value) : comparison :=
  compare_normal (Json.normalize l) (Json.normalize r).

Fixpoint insert_sorted (x : value) (sorted : list value) : list value :=
  match sorted with
  | [] => [x]
  | y :: rest =>
      match compare x y with
      | Lt => x :: y :: rest
      | _ => y :: insert_sorted x rest
      end
  end.

(** A stable sort by [compare]. *)
Definition sort_values (l : list value) : list value :=
  fold_left (fun acc x => insert_sorted x acc) l [].

(** *** Result streams

    A stream is the list of the items the iterator returns.  An error
    ends it: nothing follows a [Fail]. *)

(** [s] and then [k], unless [s] fails. *)
Fixpoint and_then (s k : list item) : list item :=
  match s with
  | [] => k
  | Fail e :: _ => [Fail e]
  | Yield v :: s' => Yield v :: and_then s' k
  end.

(** [f] on every value of [s], in order. *)
Fixpoint for_each (s : list item) (f : value -> list item) : list item :=
  match s with
  | [] => []
  | Fail e :: _ => [Fail e]
  | Yield v :: s' => and_then (f v) (for_each s' f)
  end.

(** [try]: the values of [s] up to its error, which is dropped. *)
Fixpoint try (s : list item) : list item :=
  match s with
  | [] => []
  | Fail _ :: _ => []
  | Yield v :: s' => Yield v :: try s'
  end.

(** The values of [s] gathered in an array, or the error of [s]. *)
Fixpoint collect (s : list item) (acc : list value) : item :=
  match s with
  | [] => Yield (VArray acc)
  | Fail e :: _ => Fail e
  | Yield v :: s' => collect s' (acc ++ [v])
  end.

(** *** Operations *)

(** [v.name]: the member of an object, [null] when it has none and on
    [null]. *)
Definition index (name : string) (v : value) : item :=
  match v with
  | VNull => Yield VNull
  | VObject fields =>
      match Json.lookup name fields with
      | Some x => Yield x
      | None => Yield VNull
      end
  | _ => Fail (ExpectedObject v)
  end.

(** [v[]]: the elements of an array, the member values of an object in
    key order. *)
Definition iterate (v : value) : list item :=
  match v with
  | VArray elems => map Yield elems
  | VObject fields => map (fun kv => Yield (snd kv)) (Json.members fields)
  | _ => [Fail (CannotIterate v)]
  end.

Definition apply_suffix (s : suffix) (v : value) : list item :=
  match s with
  | SuffixIndex name => [index name v]
  | SuffixIter => iterate v
  | SuffixOptional => [Yield v]
  end.

Definition add (l r : value) : item :=
  match l, r with
  | VNull, _ => Yield r
  | _, VNull => Yield l
  | VNumber a, VNumber b => Yield (VNumber (add_number a b))
  | VString a, VString b => Yield (VString (a +:+ b))
  | VArray a, VArray b => Yield (VArray (a ++ b))
  | VObject f, VObject g => Yield (VObject (f ++ g))
  | _, _ => Fail (BinopTypeError "add" l r)
  end.

Definition equal (l r : value) : bool :=
  match compare l r with
  | Eq => true
  | _ => false
  end.

Definition sort (v : value) : item :=
  match v with
  | VArray elems => Yield (VArray (sort_values elems))
  | _ => Fail (FuncTypeError "sort" v)
  end.

(** *** Evaluation *)

(** The functions the model defines, by name and number of arguments. *)
Definition defined (name : string) (args : nat) : bool :=
  match args with
  | O => String.eqb name "empty" || String.eqb name "sort" || String.eqb name "not"
  | _ => String.eqb name "select"
  end.

(** The first call of a function that is not defined; [gojq] reports it
    when it compiles the query, before it runs it. *)
Fixpoint undefined_function (q : query) : option string :=
  let first a b := match a with Some n => Some n | None => b end in
  let inside (o : option query) :=
    match o with Some q' => undefined_function q' | None => None end in
  match q with
  | Func name None => if defined name 0 then None else Some name
  | Func name (Some a) =>
      if defined name 1 then undefined_function a else Some name
  | Array body => inside body
  | If c a b => first (undefined_function c) (first (undefined_function a) (inside b))
  | Paren q' => undefined_function q'
  | WithSuffix t _ => undefined_function t
  | Binary l _ r => first (undefined_function l) (undefined_function r)
  | _ => None
  end.

(** The results of [q] on the input [v].

    - A binary operator other than [|], [,], [and], [or] runs its right
      operand first and, for each of its values, the left one.
    - [t?] where [t] ends with a field or iteration suffix runs the term
      before that suffix and guards the suffix alone. *)
Fixpoint eval (q : query) (v : value) {struct q} : list item :=
  match q with
  | Identity => [Yield v]
  | Index name => [index name v]
  | Func name None =>
      if String.eqb name "empty" then []
      else if String.eqb name "sort" then [sort v]
      else if String.eqb name "not" then [Yield (VBool (negb (truthy v)))]
      else [Fail (Errorf ("function not defined: " +:+ name))]
  | Func name (Some f) =>
      if String.eqb name "select"
      then for_each (eval f v) (fun c => if truthy c then [Yield v] else [])
      else [Fail (Errorf ("function not defined: " +:+ name))]
  | Array None => [Yield (VArray [])]
  | Array (Some body) => [collect (eval body v) []]
  | Number n => [Yield (VNumber n)]
  | Str s => [Yield (VString s)]
  | Null => [Yield VNull]
  | TrueLit => [Yield (VBool true)]
  | FalseLit => [Yield (VBool false)]
  | If c a b =>
      for_each (eval c v)
        (fun cv =>
           if truthy cv then eval a v
           else match b with
                | Some b' => eval b' v
                | None => [Yield v]
                end)
  | Paren q' => eval q' v
  | WithSuffix t SuffixOptional =>
      match t with
      | WithSuffix t' (SuffixIndex name) =>
          for_each (eval t' v) (fun x => try [index name x])
      | WithSuffix t' SuffixIter =>
          for_each (eval t' v) (fun x => try (iterate x))
      | _ => try (eval t v)
      end
  | WithSuffix t s => for_each (eval t v) (apply_suffix s)
  | Binary l OpPipe r => for_each (eval l v) (fun x => eval r x)
  | Binary l OpComma r => and_then (eval l v) (eval r v)
  | Binary l OpAnd r =>
      for_each (eval l v)
        (fun lv =>
           if truthy lv
           then for_each (eval r v) (fun rv => [Yield (VBool (truthy rv))])
           else [Yield (VBool false)])
  | Binary l OpOr r =>
      for_each (eval l v)
        (fun lv =>
           if truthy lv then [Yield (VBool true)]
           else for_each (eval r v) (fun rv => [Yield (VBool (truthy rv))]))
  | Binary l op r =>
      for_each (eval r v)
        (fun rv =>
           for_each (eval l v)
             (fun lv =>
                match op with
                | OpEq => [Yield (VBool (equal lv rv))]
                | OpNe => [Yield (VBool (negb (equal lv rv)))]
                | _ => [add lv rv]
                end))
  end.

Definition Run (q : query) (input : value) : list item :=
  match undefined_function q with
  | Some name => [Fail (Errorf ("function not defined: " +:+ name))]
  | None => eval q input
  end.

(** *** Directory listings

    A query whose results are made of its own literals: a string
    literal, an array of such, a sum, a sequence or the branches of a
    conditional of such, and anything such results are piped into.  The
    entries of the table with such a query are its directories. *)
Fixpoint lists_names (q : query) : bool :=
  match q with
  | Str _ => true
  | Array None => true
  | Array (Some body) => lists_names body
  | Paren q' => lists_names q'
  | If _ a (Some b) => lists_names a && lists_names b
  | Binary l OpPipe _ => lists_names l
  | Binary l OpComma r | Binary l OpAdd r => lists_names l && lists_names r
  | _ => false
  end.
End Jq.

#[export] Instance gojq : QueryEngine :=
  {| Query := Jq.query; Parse := Jq.Parse; Run := Jq.Run |}.

(** ** Vocabulary of the statements *)

(** [n] slashes. *)
Fixpoint slashes (n : nat) : string :=
  match n with
  | O => EmptyString
  | S n' => String "/" (slashes n')
  end.

(** The last byte of [s] is [c]. *)
Fixpoint ends_with (c : ascii) (s : string) : bool :=
  match s with
  | EmptyString => false
  | String a EmptyString => Ascii.eqb a c
  | String _ s' => ends_with c s'
  end.

(** The path normalizer as the specification words it: the version prefix
    removed, then at most one trailing slash. *)
Definition strip_one_slash (url : string) : string :=
  TrimSuffix (TrimPrefix url "/2009-04-04") "/".

(** The value found in a document by following member names: a missing
    member and a member of [null] are [null]; there is no value when the
    path goes through a string, number, boolean or array. *)
Fixpoint at_path (path : list string) (v : value) : option value :=
  match path with
  | [] => Some v
  | k :: path' =>
      match v with
      | VNull => at_path path' VNull
      | VObject fields =>
          match Json.lookup k fields with
          | Some x => at_path path' x
          | None => at_path path' VNull
          end
      | _ => None
      end
  end.

(** A stream after the field suffixes [path], one after the other. *)
Fixpoint follow (path : list string) (s : list item) : list item :=
  match path with
  | [] => s
  | k :: path' => follow path' (Jq.for_each s (Jq.apply_suffix (Jq.SuffixIndex k)))
  end.

(** The strings a stream yields, in order. *)
Fixpoint names (s : list item) : list string :=
  match s with
  | [] => []
  | Yield (VString n) :: s' => n :: names s'
  | _ :: s' => names s'
  end.

Definition name_item (n : string) : item := Yield (VString n).

(** Strictly increasing in the byte order of strings. *)
Definition lexicographic (l : list string) : Prop :=
  StronglySorted (fun a b => String.compare a b = Lt) l.

Definition is_filter_call (e : event) : bool :=
  match e with
  | EvFilterMetadata _ _ => true
  | _ => false
  end.

Definition is_resolution_failure (e : event) : bool :=
  match e with
  | EvLog _ msg _ => String.eqb msg "failed to process ec2 query"
  | _ => false
  end.

Definition flatten (pieces : list string) : string :=
  fold_right String.append EmptyString pieces.

(** What the client receives: the status of the first [WriteHeader], or
    200 when the body is written first, and the bytes written. *)
Fixpoint response_from (status : option nat) (events : list event) : option nat * string :=
  match events with
  | [] => (status, EmptyString)
  | EvWriteHeader c :: rest =>
      response_from (match status with Some s => Some s | None => Some c end) rest
  | EvWrite b :: rest =>
      let '(s, body) :=
        response_from (match status with Some s => Some s | None => Some 200 end) rest in
      (s, b +:+ body)
  | _ :: rest => response_from status rest
  end.

Definition response (events : list event) : option nat * string :=
  response_from None events.

Section Rendering.
Context `{JSONCodec}.

(** What the renderer appends for one result value, in the words of the
    specification: nothing for [null], the raw bytes of a string, the
    JSON text of any other value, and a line feed after what it
    appends. *)
Inductive emits : value -> string -> Prop :=
| emits_null : emits VNull EmptyString
| emits_string s : emits (VString s) (s +:+ String LF EmptyString)
| emits_other v text :
    v <> VNull -> (forall s, v <> VString s) -> Marshal v = inr text ->
    emits v (text +:+ String LF EmptyString).

(** The rendering of a stream of values whose pieces are [pieces]: their
    concatenation without one trailing line feed. *)
Definition rendering (pieces : list string) : string :=
  TrimSuffix (flatten pieces) (String LF EmptyString).
End Rendering.

(** The queries of [/meta-data] and of [/meta-data/tags], parsed. *)
Definition meta_data_query : Jq.query :=
  Eval vm_compute in
    match Jq.Parse (default EmptyString (ec2Filters !! "/meta-data")) with
    | inr q => q
    | inl _ => Jq.Null
    end.

Definition tags_query : Jq.query :=
  Eval vm_compute in
    match Jq.Parse (default EmptyString (ec2Filters !! "/meta-data/tags")) with
    | inr q => q
    | inl _ => Jq.Null
    end.

(** The attributes these two queries read. *)
Definition spot_path : list string := ["metadata"; "instance"; "spot"].

Definition tags_path : list string := ["metadata"; "instance"; "tags"].

(** The children of [/meta-data] that its query lists unconditionally, in
    the order of the source. *)
Definition meta_data_children : list string :=
  ["instance-id"; "hostname"; "local-hostname"; "iqn"; "plan"; "facility"; "tags";
   "operating-system"; "public-keys"; "public-ipv4"; "public-ipv6"; "local-ipv4"].

Definition mem (n : string) (l : list string) : bool := existsb (String.eqb n) l.

(** The document of the end-to-end scenario of the specification, and
    other sample inputs. *)
Definition scenario_document : string :=
  go "{'metadata':{'instance':{'id':'i-1','hostname':'h1','network':{'addresses':[{'address_family':4,'public':true,'address':'203.0.113.5'},{'address_family':4,'public':false,'address':'10.0.0.5'}]}}}}".

Definition tagged_document : string :=
  go "{'metadata':{'instance':{'tags':['a','b']}}}".

Definition unknown_request : Request :=
  {| Method := "GET"; RemoteAddr := "192.0.2.7:4242";
     URLPath := "/2009-04-04/meta-data/nonexistent" |}.

Fixpoint no_slash (s : string) : bool :=
  match s with
  | EmptyString => true
  | String c s' => negb (Ascii.eqb c "/") && no_slash s'
  end.

Definition is_null_item (i : item) : bool :=
  match i with
  | Yield VNull => true
  | _ => false
  end.

Definition line_feed : string := String LF EmptyString.

(** The part of a path after its last slash, and the part before it. *)
Fixpoint base_name (k : string) : string :=
  match k with
  | EmptyString => EmptyString
  | String c k' =>
      if ContainsRune k' "/" then base_name k'
      else if Ascii.eqb c "/" then k' else k
  end.

Fixpoint dir_name (k : string) : string :=
  match k with
  | EmptyString => EmptyString
  | String c k' => if ContainsRune k' "/" then String c (dir_name k') else EmptyString
  end.

(** ** getMetadataHandler *)

Section MetadataHandler.
Context `{JSONCodec} `{QueryEngine}.
Context {Hardware : Type}.
Variable ByIP : string -> error + Hardware.
Variable Export : Hardware -> error + string.
Variable SplitHostPort : string -> string.
(** The two data models of package [datamodel] the handler filters for;
    a [datamodel.DataModel] is a string. *)
Variable TinkServer : string.
Variable Kubernetes : string.

Definition getMetadataHandler (filter : string) (model : string) (r : Request)
  : list event :=
  if negb (String.eqb (Method r) "GET") then [EvWriteHeader 405]
  else
    EvLog "debug" "retrieving metadata" None ::
    let userIP := getIPFromRequest SplitHostPort r in
    if String.eqb userIP EmptyString then []
    else
      EvMetric "metadata_requests" ::
      EvLog "info" "got ip from request" None ::
      match ByIP userIP with
      | inl err =>
          [EvMetric "errors"; EvLog "info" "failed to get hardware by ip" (Some err);
           EvWriteHeader 404]
      | inr hw =>
          match Export hw with
          | inl err =>
              [EvLog "info" "failed to export hardware" (Some err); EvWriteHeader 500]
          | inr hardware =>
              if String.eqb model TinkServer || String.eqb model Kubernetes then
                EvFilterMetadata hardware filter ::
                match filterMetadata hardware filter with
                | (_, Some err) =>
                    [EvLog "info" "failed to filter metadata" (Some err);
                     EvWriteHeader 500]
                | (hardware', None) => [EvWriteHeader 200; EvWrite hardware']
                end
              else [EvWriteHeader 200; EvWrite hardware]
          end
      end.
End MetadataHandler.

(** The member names of a query that is a chain of field accesses. *)
Fixpoint field_path (q : Jq.query) : option (list string) :=
  match q with
  | Jq.Index k => Some [k]
  | Jq.WithSuffix t (Jq.SuffixIndex k) =>
      match field_path t with
      | Some p => Some (p ++ [k])%list
      | None => None
      end
  | _ => None
  end.

(** The member names of a query of the form [.a.b.c[]?]. *)
Definition iterated_path (q : Jq.query) : option (list string) :=
  match q with
  | Jq.WithSuffix (Jq.WithSuffix t Jq.SuffixIter) Jq.SuffixOptional => field_path t
  | _ => None
  end.






(** ** A model of [net.SplitHostPort]

    The function of package [net], on byte indices as its source has it:
    the port starts after the last colon; a host in square brackets may
    contain colons, any other host may not; a bracket anywhere else is an
    error.  On an error the three results are the empty strings and the
    error. *)
Module Net.

Fixpoint IndexByte (s : string) (c : ascii) : option nat :=
  match s with
  | EmptyString => None
  | String a s' =>
      if Ascii.eqb a c then Some O
      else match IndexByte s' c with
           | Some i => Some (S i)
           | None => None
           end
  end.

Fixpoint LastIndexByte (s : string) (c : ascii) : option nat :=
  match s with
  | EmptyString => None
  | String a s' =>
      match LastIndexByte s' c with
      | Some i => Some (S i)
      | None => if Ascii.eqb a c then Some O else None
      end
  end.

(** [s[from:]] *)
Definition slice_from (from : nat) (s : string) : string :=
  String.substring from (String.length s - from) s.

Definition addrErr (addr why : string) : string * string * option error :=
  (EmptyString, EmptyString, Some (Errorf ("address " +:+ addr +:+ ": " +:+ why))).

Definition SplitHostPort (hostport : string) : string * string * option error :=
  let missingPort := "missing port in address" in
  let tooManyColons := "too many colons in address" in
  match LastIndexByte hostport ":" with
  | None => addrErr hostport missingPort
  | Some i =>
      let bracketed :=
        match hostport with
        | String c _ => Ascii.eqb c "["
        | EmptyString => false
        end in
      let host_j_k : string + (string * nat * nat) :=
        if bracketed then
          match IndexByte hostport "]" with
          | None => inl "missing ']' in address"
          | Some close =>
              if (close + 1 =? String.length hostport)%nat then inl missingPort
              else if (close + 1 =? i)%nat
              then inr (String.substring 1 (close - 1) hostport, 1, close + 1)%nat
              else
                match String.get (close + 1) hostport with
                | Some c => if Ascii.eqb c ":" then inl tooManyColons else inl missingPort
                | None => inl missingPort
                end
          end
        else
          let host := String.substring 0 i hostport in
          match IndexByte host ":" with
          | Some _ => inl tooManyColons
          | None => inr (host, O, O)
          end in
      match host_j_k with
      | inl why => addrErr hostport why
      | inr (host, j, k) =>
          match IndexByte (slice_from j hostport) "[" with
          | Some _ => addrErr hostport "unexpected '[' in address"
          | None =>
              match IndexByte (slice_from k hostport) "]" with
              | Some _ => addrErr hostport "unexpected ']' in address"
              | None => (host, slice_from (i + 1) hostport, None)
              end
          end
      end
  end.

(** The host, as [getIPFromRequest] takes it: [addr, _, _ = ...]. *)
Definition host_of (hostport : string) : string := fst (fst (SplitHostPort hostport)).

End Net.

(** A string without colons or square brackets. *)
Definition plain (s : string) : bool :=
  negb (ContainsRune s ":") && negb (ContainsRune s "[") && negb (ContainsRune s "]").

(** A value that is neither an array nor an object. *)
Definition scalar (v : value) : bool :=
  match v with
  | VArray _ | VObject _ => false
  | _ => true
  end.

(** A codec that decodes as [encoding/json] does and refuses to encode. *)
Definition refusing_codec : JSONCodec :=
  {| Unmarshal := Json.Unmarshal; Marshal := fun _ => inl UnsupportedValueError |}.

Definition misshapen_document : string := go "{'metadata':5}".

Definition sample_request (path : string) : Request :=
  {| Method := "GET"; RemoteAddr := "192.0.2.7:4242"; URLPath := path |}.

(** A scanner result that is not [Stuck] and, when it is a success, leaves
    fewer than [N] bytes. *)
Definition within {A : Type} (N : nat) (res : Json.result A) : Prop :=
  res <> Json.Stuck
  /\ forall a r, res = Json.Ok a r -> (String.length r < N)%nat.

(** The stages of [Json.scan_number]: sign, integer part, fraction,
    exponent. *)
Definition number_sign (s : string) : bool * string :=
  match s with
  | String c r => if (Json.code c =? 45)%N then (true, r) else (false, s)
  | EmptyString => (false, s)
  end.

Definition number_int (s0 : string) : string * string :=
  match s0 with
  | String c r =>
      if (Json.code c =? 48)%N then (String c EmptyString, r) else Json.span_digits s0
  | EmptyString => (EmptyString, s0)
  end.

Definition number_frac (s1 : string) : Json.result string :=
  match s1 with
  | String c r =>
      if (Json.code c =? 46)%N then
        let '(f, r') := Json.span_digits r in
        match f with
        | EmptyString =>
            match r' with
            | EmptyString => Json.eof
            | _ => Json.invalid "after decimal point in numeric literal"
            end
        | _ => Json.Ok f r'
        end
      else Json.Ok EmptyString s1
  | EmptyString => Json.Ok EmptyString s1
  end.

Definition number_expo (s2 : string) : Json.result Z :=
  match s2 with
  | String c r =>
      if (Json.code c =? 101)%N || (Json.code c =? 69)%N then
        let '(eneg, r0) :=
          match r with
          | String g r' =>
              if (Json.code g =? 45)%N then (true, r')
              else if (Json.code g =? 43)%N then (false, r')
              else (false, r)
          | EmptyString => (false, r)
          end in
        let '(e, r') := Json.span_digits r0 in
        match e with
        | EmptyString =>
            match r' with
            | EmptyString => Json.eof
            | _ => Json.invalid "in exponent of numeric literal"
            end
        | _ => Json.Ok (if eneg then (- Json.digits_value 0 e)%Z else Json.digits_value 0 e) r'
        end
      else Json.Ok 0%Z s2
  | EmptyString => Json.Ok 0%Z s2
  end.

(** ** Strings *)

Lemma append_nil (s : string) : EmptyString +:+ s = s.
Proof. reflexivity. Qed.

Lemma append_cons (c : ascii) (s t : string) : String c s +:+ t = String c (s +:+ t).
Proof. reflexivity. Qed.

Lemma append_empty_r (s : string) : s +:+ EmptyString = s.
Proof.
  induction s as [|c s IH]; [reflexivity |]. now rewrite append_cons, IH.
Qed.

Lemma append_assoc (a b c : string) : (a +:+ b) +:+ c = a +:+ (b +:+ c).
Proof.
  induction a as [|x a IH]; [reflexivity |]. now rewrite !append_cons, IH.
Qed.

Lemma strip_prefix_Some (p s r : string) : strip_prefix p s = Some r -> s = p +:+ r.
Proof.
  revert s; induction p as [|a p IH]; intros s Hs; simpl in *.
  - now inversion Hs.
  - destruct s as [|b s]; [discriminate |].
    destruct (Ascii.eqb a b) eqn:Hab; [| discriminate].
    apply Ascii.eqb_eq in Hab; subst b. now rewrite append_cons, <- (IH _ Hs).
Qed.

Lemma strip_prefix_append (p r : string) : strip_prefix p (p +:+ r) = Some r.
Proof.
  induction p as [|a p IH]; [reflexivity |].
  rewrite append_cons. simpl. now rewrite Ascii.eqb_refl.
Qed.

(** [TrimPrefix] removes the prefix when it is there and changes nothing
    otherwise. *)
Lemma TrimPrefix_spec (s prefix : string) :
  s = prefix +:+ TrimPrefix s prefix
  \/ (TrimPrefix s prefix = s /\ forall r, s <> prefix +:+ r).
Proof.
  unfold TrimPrefix. destruct (strip_prefix prefix s) as [r|] eqn:Hs.
  - left. now apply strip_prefix_Some.
  - right. split; [reflexivity |]. intros r ->.
    rewrite strip_prefix_append in Hs. discriminate.
Qed.

Lemma ends_with_cons (c a : ascii) (s : string) :
  s <> EmptyString -> ends_with c (String a s) = ends_with c s.
Proof. destruct s; [congruence | reflexivity]. Qed.

(** [TrimSuffix] with a one-byte suffix removes exactly one such byte from
    the end when there is one. *)
Lemma TrimSuffix_byte (c : ascii) (s : string) :
  (ends_with c s = true /\ s = TrimSuffix s (String c EmptyString) +:+ String c EmptyString)
  \/ (ends_with c s = false /\ TrimSuffix s (String c EmptyString) = s).
Proof.
  induction s as [|a s IH]; [right; split; reflexivity |].
  destruct s as [|b s].
  - simpl. rewrite Ascii.eqb_sym.
    destruct (Ascii.eqb c a) eqn:Hca.
    + left. apply Ascii.eqb_eq in Hca. subst. split; reflexivity.
    + right. split; reflexivity.
  - change (TrimSuffix (String a (String b s)) (String c EmptyString))
      with (if String.eqb (String a (String b s)) (String c EmptyString)
            then EmptyString
            else String a (TrimSuffix (String b s) (String c EmptyString))).
    replace (String.eqb (String a (String b s)) (String c EmptyString)) with false
      by (simpl; destruct (Ascii.eqb a c); reflexivity).
    rewrite ends_with_cons by discriminate.
    destruct IH as [[He Hs] | [He Hs]].
    + left. split; [exact He |]. rewrite append_cons. now rewrite <- Hs.
    + right. split; [exact He |]. now rewrite Hs.
Qed.

Lemma TrimRight_cons (c : ascii) (s cutset : string) :
  TrimRight (String c s) cutset
  = match TrimRight s cutset with
    | EmptyString => if ContainsRune cutset c then EmptyString else String c EmptyString
    | r => String c r
    end.
Proof. reflexivity. Qed.

Lemma ContainsRune_slash (c : ascii) : ContainsRune "/" c = Ascii.eqb c "/".
Proof.
  change (ContainsRune "/" c) with (Ascii.eqb "/" c || false).
  now rewrite orb_false_r, Ascii.eqb_sym.
Qed.

Lemma TrimRight_nil_inv (s : string) :
  TrimRight s "/" = EmptyString -> exists n, s = slashes n.
Proof.
  induction s as [|c s IH]; intros Ht.
  - now exists 0%nat.
  - rewrite TrimRight_cons, ContainsRune_slash in Ht.
    destruct (TrimRight s "/") eqn:Hs; [| discriminate].
    destruct (Ascii.eqb c "/") eqn:Hc; [| discriminate].
    apply Ascii.eqb_eq in Hc. subst c.
    destruct (IH eq_refl) as [n ->]. now exists (S n).
Qed.

(** [TrimRight] with the cutset [/] removes every trailing slash. *)
Lemma TrimRight_slashes (s : string) :
  ends_with "/" (TrimRight s "/") = false
  /\ exists n, s = TrimRight s "/" +:+ slashes n.
Proof.
  induction s as [|c s [IHe [n IHn]]]; [split; [reflexivity | now exists 0%nat] |].
  rewrite TrimRight_cons, ContainsRune_slash.
  destruct (TrimRight s "/") as [|b t] eqn:Hs.
  - destruct (TrimRight_nil_inv s Hs) as [m ->].
    destruct (Ascii.eqb c "/") eqn:Hc.
    + apply Ascii.eqb_eq in Hc. subst c. split; [reflexivity | now exists (S m)].
    + split; [simpl; exact Hc | exists m; now rewrite append_cons, append_nil].
  - split.
    + rewrite ends_with_cons by discriminate. exact IHe.
    + exists n. rewrite append_cons. f_equal. exact IHn.
Qed.

(** ** The rendering loop *)

Section RenderingFacts.
Context `{JSONCodec}.

Lemma drain_emits (values : list value) (pieces : list string) :
  Forall2 emits values pieces ->
  forall buffer,
    drain (map Yield values) buffer
    = (TrimSuffix (buffer +:+ flatten pieces) (String LF EmptyString), None).
Proof.
  induction 1 as [|v p values pieces Hv _ IH]; intros buffer; simpl.
  - now rewrite append_empty_r.
  - destruct Hv as [|s|v text Hnull Hstr Hm].
    + apply IH.
    + rewrite IH. now rewrite !append_assoc.
    + destruct v; try congruence; try (now exfalso; eapply Hstr);
        rewrite Hm, IH; now rewrite !append_assoc.
Qed.

(** A failure anywhere in the stream discards the buffer. *)
Lemma drain_fails (iter : list item) (e : error) :
  In (Fail e) iter ->
  forall buffer, exists err, drain iter buffer = (EmptyString, Some err).
Proof.
  induction iter as [|it iter IH]; intros Hin buffer; [destruct Hin |].
  destruct it as [v | e'].
  - assert (Hrest : In (Fail e) iter) by (destruct Hin; [discriminate | assumption]).
    destruct v; simpl; try apply (IH Hrest);
      destruct (Marshal _); eauto using IH.
  - simpl. eauto.
Qed.
End RenderingFacts.

(** ** Path normalisation *)

(** C4, the claim as the specification states it, fails: on a path with two
    trailing slashes the normalizer removes both where one was to stay, so
    the path resolves to the entry of [/meta-data]. *)
Lemma canonicalPath_strips_two_slashes :
  canonicalPath "/2009-04-04/meta-data//" = "/meta-data"
  /\ strip_one_slash "/2009-04-04/meta-data//" = "/meta-data/"
  /\ canonicalPath "/2009-04-04/meta-data//" <> strip_one_slash "/2009-04-04/meta-data//"
  /\ snd (processEC2Query "/2009-04-04/meta-data//") = None
  /\ ec2Filters !! strip_one_slash "/2009-04-04/meta-data//" = None.
Proof. vm_compute. repeat split; congruence. Qed.

(** C4, amended: for every raw request path the normalizer removes the
    leading version prefix, once and only when the path starts with it, and
    then every trailing slash: the result does not end with a slash and
    differs from the prefix-free path by trailing slashes only. *)
Theorem canonicalPath_strips_every_slash (url : string) :
  let rest := TrimPrefix url "/2009-04-04" in
  (url = "/2009-04-04" +:+ rest
   \/ (rest = url /\ forall r, url <> "/2009-04-04" +:+ r))
  /\ ends_with "/" (canonicalPath url) = false
  /\ exists n, rest = canonicalPath url +:+ slashes n.
Proof.
  intros rest. split; [apply TrimPrefix_spec |].
  apply TrimRight_slashes.
Qed.

(** ** Rendering *)

(** C1: when the filter parses, the document unmarshals and the query
    yields the values [values] without an error, [filterMetadata] returns,
    with no error, the pieces these values emit, in order, joined and with
    one trailing line feed removed: nothing for [null], the raw bytes and a
    line feed for a string, the JSON text and a line feed for any other
    value.  Exactly one line feed is removed when the joined pieces end
    with one, none otherwise, and an empty stream gives the empty byte
    sequence. *)
Theorem filterMetadata_renders `{JSONCodec} `{QueryEngine}
    (hw filter : string) (q : Query) (input : list (string * value))
    (values : list value) (pieces : list string) :
  Parse filter = inr q ->
  Unmarshal hw = inr input ->
  Run q (VObject input) = map Yield values ->
  Forall2 emits values pieces ->
  filterMetadata hw filter = (rendering pieces, None)
  /\ ((ends_with LF (flatten pieces) = true
       /\ flatten pieces = rendering pieces +:+ String LF EmptyString)
      \/ (ends_with LF (flatten pieces) = false
          /\ rendering pieces = flatten pieces))
  /\ (values = [] -> rendering pieces = EmptyString).
Proof.
  intros Hq Hin Hrun Hemit. split; [| split].
  - unfold filterMetadata. rewrite Hq, Hin, Hrun.
    now rewrite (drain_emits _ _ Hemit), append_nil.
  - apply TrimSuffix_byte.
  - intros ->. now inversion Hemit.
Qed.

(** ** Failures *)

(** C6: whenever the filter does not compile, the document does not
    unmarshal, or the query yields an error somewhere in its results,
    [filterMetadata] returns an error and no bytes at all. *)
Theorem filterMetadata_fails_whole `{JSONCodec} `{QueryEngine} (hw filter : string) :
  (exists e, Parse filter = inl e)
  \/ (exists e, Unmarshal hw = inl e)
  \/ (exists q input e,
        Parse filter = inr q /\ Unmarshal hw = inr input
        /\ In (Fail e) (Run q (VObject input))) ->
  exists err, filterMetadata hw filter = (EmptyString, Some err).
Proof.
  unfold filterMetadata.
  intros [[e He] | [[e He] | (q & input & e & Hq & Hin & Hfail)]].
  - rewrite He. eauto.
  - destruct (Parse filter); rewrite ?He; eauto.
  - rewrite Hq, Hin. eapply drain_fails, Hfail.
Qed.

(** ** Resolution *)

Section Resolution.
Context `{JSONCodec} `{QueryEngine}.
Context {Hardware : Type}.
Variable ByIP : string -> error + Hardware.
Variable Export : Hardware -> error + string.
Variable SplitHostPort : string -> string.

Lemma respond_unknown (ehw path : string) :
  ec2Filters !! canonicalPath path = None ->
  respond ehw path
  = [EvLog "info" "failed to process ec2 query"
       (Some (Errorf ("invalid metadata item: " +:+ canonicalPath path)));
     EvWriteHeader 404; EvWrite "404 not found"].
Proof. intros Hnone. unfold respond, processEC2Query. now rewrite Hnone. Qed.

Lemma handler_calls_in_respond (r : Request) :
  (forall ehw, Forall (fun e => is_filter_call e = false) (respond ehw (URLPath r))) ->
  Forall (fun e => is_filter_call e = false)
    (ec2MetadataHandler ByIP Export SplitHostPort r).
Proof.
  intros Hresp. unfold ec2MetadataHandler.
  destruct (negb _); [repeat constructor |].
  constructor; [reflexivity |].
  destruct (String.eqb _ _); [repeat constructor |].
  do 2 (constructor; [reflexivity |]).
  destruct (ByIP _) as [e | hw]; [repeat constructor |].
  destruct (Export hw) as [e | ehw]; [repeat constructor |].
  constructor; [reflexivity | apply Hresp].
Qed.
End Resolution.

(** C5: a path whose canonical form is not a key of the table resolves to
    the error [invalid metadata item], whatever else the table holds; the
    handler then answers 404 with the body [404 not found], does not call
    [filterMetadata], and its behaviour is the same for every JSON codec
    and query engine. *)
Theorem unknown_path_is_terminal {codec : JSONCodec} {engine : QueryEngine}
    {Hardware : Type}
    (ByIP : string -> error + Hardware) (Export : Hardware -> error + string)
    (SplitHostPort : string -> string) (r : Request) :
  ec2Filters !! canonicalPath (URLPath r) = None ->
  processEC2Query (URLPath r)
  = (EmptyString,
     Some (Errorf ("invalid metadata item: " +:+ canonicalPath (URLPath r))))
  /\ (forall ehw,
        response (@respond codec engine ehw (URLPath r))
        = (Some 404%nat, "404 not found"))
  /\ Forall (fun e => is_filter_call e = false)
       (@ec2MetadataHandler codec engine _ ByIP Export SplitHostPort r)
  /\ (forall (codec' : JSONCodec) (engine' : QueryEngine),
        @ec2MetadataHandler codec' engine' _ ByIP Export SplitHostPort r
        = @ec2MetadataHandler codec engine _ ByIP Export SplitHostPort r).
Proof.
  intros Hnone. split; [| split; [| split]].
  - unfold processEC2Query. now rewrite Hnone.
  - intros ehw. rewrite respond_unknown; [reflexivity | assumption].
  - apply handler_calls_in_respond. intros ehw.
    rewrite respond_unknown; [repeat constructor | assumption].
  - intros codec' engine'.
    assert (Hsame : forall ehw,
               @respond codec' engine' ehw (URLPath r)
               = @respond codec engine ehw (URLPath r)).
    { intros ehw. rewrite (respond_unknown (H:=codec') (H0:=engine')) by assumption.
      now rewrite (respond_unknown (H:=codec) (H0:=engine)) by assumption. }
    unfold ec2MetadataHandler.
    destruct (negb _); [reflexivity |].
    destruct (String.eqb _ _); [reflexivity |].
    destruct (ByIP _) as [e | hw]; [reflexivity |].
    destruct (Export hw) as [e | ehw]; [reflexivity |].
    now rewrite Hsame.
Qed.

(** ** The query engine on the filters of the table *)

Lemma and_then_single (i : item) : Jq.and_then [i] [] = [i].
Proof. now destruct i. Qed.

Lemma follow_fail (path : list string) (e : error) : follow path [Fail e] = [Fail e].
Proof. induction path as [|k path IH]; [reflexivity | exact IH]. Qed.

(** Field suffixes walk the document as [at_path] does. *)
Lemma follow_at_path (path : list string) (v : value) :
  match at_path path v with
  | Some x => follow path [Yield v] = [Yield x]
  | None => exists e, follow path [Yield v] = [Fail e]
  end.
Proof.
  revert v. induction path as [|k path IH]; intros v; [reflexivity |].
  change (follow (k :: path) [Yield v])
    with (follow path (Jq.and_then [Jq.index k v] [])).
  rewrite and_then_single.
  destruct v as [| b | n | s | elems | fields]; simpl;
    try (rewrite follow_fail; eauto).
  - apply IH.
  - destruct (Json.lookup k fields) as [x|]; apply IH.
Qed.

Lemma equal_null (x : value) : Jq.equal x VNull = true <-> x = VNull.
Proof.
  destruct x as [| [] | n | s | elems | fields]; unfold Jq.equal, Jq.compare; simpl;
    split; congruence.
Qed.

Lemma follow_index (path : list string) (k : string) (v : value) :
  follow path [Jq.index k v] = follow (k :: path) [Yield v].
Proof.
  change (follow (k :: path) [Yield v]) with (follow path (Jq.and_then [Jq.index k v] [])).
  now rewrite and_then_single.
Qed.

Lemma meta_data_stream (doc : list (string * value)) :
  match at_path spot_path (VObject doc) with
  | Some VNull =>
      Jq.Run meta_data_query (VObject doc)
      = map name_item
          ["facility"; "hostname"; "instance-id"; "iqn"; "local-hostname";
           "local-ipv4"; "operating-system"; "plan"; "public-ipv4";
           "public-ipv6"; "public-keys"; "tags"]
  | Some _ =>
      Jq.Run meta_data_query (VObject doc)
      = map name_item
          ["facility"; "hostname"; "instance-id"; "iqn"; "local-hostname";
           "local-ipv4"; "operating-system"; "plan"; "public-ipv4";
           "public-ipv6"; "public-keys"; "spot"; "tags"]
  | None => exists e, Jq.Run meta_data_query (VObject doc) = [Fail e]
  end.
Proof.
  unfold Jq.Run.
  change (Jq.undefined_function meta_data_query) with (@None string).
  unfold meta_data_query. cbn [Jq.eval].
  change (Jq.for_each (Jq.for_each [Jq.index "metadata" (VObject doc)] _) _)
    with (follow ["instance"; "spot"] [Jq.index "metadata" (VObject doc)]).
  rewrite follow_index.
  pose proof (follow_at_path spot_path (VObject doc)) as Hpath.
  unfold spot_path in *.
  destruct (at_path _ _) as [x|].
  - rewrite Hpath. destruct x as [| [] | n | s | elems | fields]; vm_compute; reflexivity.
  - destruct Hpath as [e ->]. exists e. reflexivity.
Qed.

Lemma names_name_items (l : list string) : names (map name_item l) = l.
Proof. induction l as [|n l IH]; [reflexivity | simpl; now rewrite IH]. Qed.

Ltac lexicographic_list :=
  unfold lexicographic; repeat (constructor; try reflexivity).

Lemma mem_In (n : string) (l : list string) : mem n l = true <-> In n l.
Proof.
  unfold mem. rewrite existsb_exists. split.
  - intros (m & Hin & Heq). apply String.eqb_eq in Heq. now subst.
  - intros Hin. exists n. split; [assumption | apply String.eqb_refl].
Qed.

(** Two lists with the same members, decided by computation. *)
Lemma same_members (l1 l2 : list string) :
  forallb (fun n => mem n l2) l1 = true ->
  forallb (fun n => mem n l1) l2 = true ->
  forall n, In n l1 <-> In n l2.
Proof.
  rewrite !forallb_forall. intros H12 H21 n.
  split; intros Hin; apply mem_In; auto.
Qed.

(** C3: on every instance document the query registered for [/meta-data]
    yields names in strictly increasing lexicographic order, and ["spot"]
    is among them exactly when [metadata.instance.spot] exists and is not
    null.  When the walk to [metadata.instance.spot] does not run into a
    value that is not an object, the query yields nothing but names: the
    twelve fixed children and, when the attribute is not null, ["spot"];
    otherwise it yields an error and no name. *)
Theorem meta_data_listing (doc : list (string * value)) :
  exists filter q,
    ec2Filters !! "/meta-data" = Some filter /\ Jq.Parse filter = inr q /\
    let stream := Jq.Run q (VObject doc) in
    let spot := at_path ["metadata"; "instance"; "spot"] (VObject doc) in
    lexicographic (names stream)
    /\ (In "spot" (names stream) <-> exists x, spot = Some x /\ x <> VNull)
    /\ match spot with
       | Some x =>
           stream = map name_item (names stream)
           /\ forall n, In n (names stream)
                        <-> In n meta_data_children \/ (n = "spot" /\ x <> VNull)
       | None => exists e, stream = [Fail e]
       end.
Proof.
  exists (default EmptyString (ec2Filters !! "/meta-data")), meta_data_query.
  split; [vm_compute; reflexivity |]. split; [vm_compute; reflexivity |].
  cbv zeta. pose proof (meta_data_stream doc) as Hs. unfold spot_path in Hs.
  destruct (at_path _ _) as [x|].
  - assert (Hspot : ~ In "spot" meta_data_children)
      by (intros Hin; apply mem_In in Hin; discriminate).
    destruct x as [| b | n | s | elems | fields]; rewrite Hs, names_name_items;
      (split; [lexicographic_list |]); (split; [| split; [reflexivity |]]).
    1: { split; [intros Hin; apply mem_In in Hin; discriminate
                | intros (x & Hx & Hne); congruence]. }
    1: { intros m. rewrite (same_members _ meta_data_children) by reflexivity.
         intuition congruence. }
    all: try (split; [intros _; eexists; split; [reflexivity | discriminate]
                     | intros _; apply mem_In; reflexivity]).
    all: intros m;
      rewrite (same_members _ ("spot" :: meta_data_children)) by reflexivity;
      simpl; split; [intros [<- | Hin]; [right; split; [reflexivity | discriminate]
                                       | now left]
                    | intros [Hin | [-> _]]; [now right | now left]].
  - destruct Hs as [e ->]. simpl. split; [constructor |].
    split; [| now exists e].
    split; [intros [] | intros (x & Hx & _); discriminate].
Qed.

(** ** Directories *)

Lemma lookup_entries (m : gmap string string) (k f : string) :
  m !! k = Some f -> In (k, f) (map_to_list m).
Proof.
  intros Hk. apply list_elem_of_In. apply elem_of_map_to_list. exact Hk.
Qed.

(** Replace [t] in [H] by its value. *)
Ltac computed_in t H :=
  let r := eval vm_compute in t in
  let E := fresh "E" in
  assert (E : t = r) by (vm_compute; reflexivity);
  rewrite E in H; clear E.

Ltac resolved := split; [vm_compute; eauto | vm_compute; reflexivity].

Lemma meta_data_names_resolve (doc : list (string * value)) (name : string) :
  In (name_item name) (Jq.Run meta_data_query (VObject doc)) ->
  is_Some (ec2Filters !! ("/meta-data" +:+ "/" +:+ name))
  /\ snd (processEC2Query ("/2009-04-04" +:+ "/meta-data" +:+ "/" +:+ name)) = None.
Proof.
  intros Hin. pose proof (meta_data_stream doc) as Hs.
  destruct (at_path spot_path (VObject doc)) as [x|].
  - destruct x; rewrite Hs in Hin; simpl in Hin;
      repeat (destruct Hin as [Hin | Hin]; [injection Hin as <-; resolved |]);
      now destruct Hin.
  - destruct Hs as [e He]. rewrite He in Hin.
    destruct Hin as [Hin | []]. discriminate Hin.
Qed.

(** C2: for every entry of the table whose query lists names, a directory,
    and every instance document, each name the query yields is, appended to
    the path of the directory, the key of an entry of the table, and the
    request for it resolves. *)
Theorem directory_names_resolve (k filter : string) (q : Jq.query)
    (doc : list (string * value)) (name : string) :
  ec2Filters !! k = Some filter ->
  Jq.Parse filter = inr q ->
  Jq.lists_names q = true ->
  In (name_item name) (Jq.Run q (VObject doc)) ->
  is_Some (ec2Filters !! (k +:+ "/" +:+ name))
  /\ snd (processEC2Query ("/2009-04-04" +:+ k +:+ "/" +:+ name)) = None.
Proof.
  intros Hk Hq Hdir Hin. apply lookup_entries in Hk.
  computed_in (map_to_list ec2Filters) Hk. simpl in Hk.
  repeat (destruct Hk as [Hk | Hk];
          [ injection Hk as <- <-;
            match type of Hq with ?p = _ => computed_in p Hq end;
            injection Hq as <-;
            match type of Hdir with ?b = _ => computed_in b Hdir end;
            try discriminate Hdir | ]);
    [.. | destruct Hk].
  all: try (lazymatch type of Hin with
            | context [Jq.SuffixIndex "spot"] => fail
            | _ => idtac
            end;
            match type of Hin with In _ ?s => computed_in s Hin end;
            simpl in Hin;
            repeat (destruct Hin as [Hin | Hin];
                    [injection Hin as <-; resolved |]);
            now destruct Hin).
  match type of Hin with
  | In _ (Jq.Run ?Q _) =>
      assert (HQ : Q = meta_data_query) by (vm_compute; reflexivity);
      rewrite HQ in Hin
  end.
  exact (meta_data_names_resolve doc name Hin).
Qed.

(** ** Leaves *)

(** The query of [/meta-data/tags] iterates over the value at
    [metadata.instance.tags] and drops the error of an iteration that is not
    possible. *)
Lemma tags_stream (doc : list (string * value)) :
  match at_path tags_path (VObject doc) with
  | Some x => Jq.Run tags_query (VObject doc) = Jq.and_then (Jq.try (Jq.iterate x)) []
  | None => exists e, Jq.Run tags_query (VObject doc) = [Fail e]
  end.
Proof.
  unfold Jq.Run.
  change (Jq.undefined_function tags_query) with (@None string).
  unfold tags_query. cbn [Jq.eval].
  change (Jq.for_each (Jq.for_each [Jq.index "metadata" (VObject doc)] _) _)
    with (follow ["instance"; "tags"] [Jq.index "metadata" (VObject doc)]).
  rewrite follow_index.
  pose proof (follow_at_path tags_path (VObject doc)) as Hpath.
  unfold tags_path in *.
  destruct (at_path _ _) as [x|].
  - now rewrite Hpath.
  - destruct Hpath as [e ->]. exists e. reflexivity.
Qed.

Lemma filterMetadata_unfold (hw filter : string) :
  @filterMetadata json_codec gojq hw filter
  = match Jq.Parse filter with
    | inl err => (EmptyString, Some err)
    | inr query =>
        match Json.Unmarshal hw with
        | inl err => (EmptyString, Some err)
        | inr input => @drain json_codec (Jq.Run query (VObject input)) EmptyString
        end
    end.
Proof. reflexivity. Qed.

(** C7: on a document whose [metadata.instance.tags] is the array of the
    strings a and b, the filter registered for [/meta-data/tags] renders
    the two bytes a and b separated by one line feed, with none at the end;
    on a document where the attribute is missing or null it renders the
    empty byte sequence.  Neither is an error. *)
Theorem tags_rendering (hw : string) (doc : list (string * value)) (tags : value) :
  Json.Unmarshal hw = inr doc ->
  at_path ["metadata"; "instance"; "tags"] (VObject doc) = Some tags ->
  tags = VArray [VString "a"; VString "b"] \/ tags = VNull ->
  exists filter,
    processEC2Query "/2009-04-04/meta-data/tags" = (filter, None)
    /\ @filterMetadata json_codec gojq hw filter
       = (match tags with
          | VNull => EmptyString
          | _ => String "a" (String LF (String "b" EmptyString))
          end, None).
Proof.
  intros Hdoc Htags Hcase.
  exists (default EmptyString (ec2Filters !! "/meta-data/tags")).
  split; [vm_compute; reflexivity |].
  rewrite filterMetadata_unfold, Hdoc.
  replace (Jq.Parse (default EmptyString (ec2Filters !! "/meta-data/tags")))
    with (@inr error _ tags_query) by (vm_compute; reflexivity).
  pose proof (tags_stream doc) as Hs. unfold tags_path in Hs.
  rewrite Htags in Hs. rewrite Hs.
  destruct Hcase as [-> | ->]; reflexivity.
Qed.

(** C8: on the document of the end-to-end scenario, the request for
    [/meta-data/public-ipv4] resolves and its filter renders exactly
    [203.0.113.5]; the request for [/meta-data/local-ipv4] resolves and its
    filter renders exactly [10.0.0.5]; the handler answers 200 with these
    bodies. *)
Theorem scenario_addresses :
  (exists filter,
     processEC2Query "/2009-04-04/meta-data/public-ipv4" = (filter, None)
     /\ @filterMetadata json_codec gojq scenario_document filter = ("203.0.113.5", None))
  /\ (exists filter,
        processEC2Query "/2009-04-04/meta-data/local-ipv4" = (filter, None)
        /\ @filterMetadata json_codec gojq scenario_document filter = ("10.0.0.5", None))
  /\ response (@respond json_codec gojq scenario_document "/2009-04-04/meta-data/public-ipv4")
     = (Some 200%nat, "203.0.113.5")
  /\ response (@respond json_codec gojq scenario_document "/2009-04-04/meta-data/local-ipv4")
     = (Some 200%nat, "10.0.0.5").
Proof.
  split; [| split; [| split]].
  - exists (default EmptyString (ec2Filters !! "/meta-data/public-ipv4")).
    split; vm_compute; reflexivity.
  - exists (default EmptyString (ec2Filters !! "/meta-data/local-ipv4")).
    split; vm_compute; reflexivity.
  - vm_compute; reflexivity.
  - vm_compute; reflexivity.
Qed.

(** ** The spot subtree *)

Lemma respond_known {codec : JSONCodec} {engine : QueryEngine}
    (ehw path filter : string) :
  processEC2Query path = (filter, None) ->
  @respond codec engine ehw path
  = EvFilterMetadata ehw filter
    :: match snd (filterMetadata ehw filter) with
       | Some e => [EvLog "info" "failed to filter metadata" (Some e)]
       | None => []
       end ++ [EvWrite (fst (filterMetadata ehw filter))].
Proof.
  intros Hp. unfold respond. rewrite Hp.
  now destruct (filterMetadata ehw filter) as [resp [e|]].
Qed.

Lemma respond_known_resolves {codec : JSONCodec} {engine : QueryEngine}
    (ehw path filter : string) :
  processEC2Query path = (filter, None) ->
  Forall (fun e => is_resolution_failure e = false) (@respond codec engine ehw path).
Proof.
  intros Hp. rewrite (respond_known _ _ _ Hp).
  destruct (snd (filterMetadata ehw filter)); repeat constructor.
Qed.

(** C9: the paths [/meta-data/spot] and [/meta-data/spot/termination-time]
    resolve to their registered filters, and the handler never reports a
    resolution failure for them, whatever the exported document, the codec
    and the engine are; this holds in particular for a document whose
    [metadata.instance.spot] is missing or null, for which the listing of
    [/meta-data] does not contain ["spot"]. *)
Theorem spot_paths_resolve_unconditionally {codec : JSONCodec} {engine : QueryEngine}
    (ehw : string) (doc : list (string * value)) :
  processEC2Query "/2009-04-04/meta-data/spot" = (go "'termination-time'", None)
  /\ processEC2Query "/2009-04-04/meta-data/spot/termination-time"
     = (".metadata.instance.spot.termination_time", None)
  /\ Forall (fun e => is_resolution_failure e = false)
       (@respond codec engine ehw "/2009-04-04/meta-data/spot")
  /\ Forall (fun e => is_resolution_failure e = false)
       (@respond codec engine ehw "/2009-04-04/meta-data/spot/termination-time")
  /\ match at_path ["metadata"; "instance"; "spot"] (VObject doc) with
     | Some VNull =>
         exists filter q,
           ec2Filters !! "/meta-data" = Some filter /\ Jq.Parse filter = inr q
           /\ ~ In "spot" (names (Jq.Run q (VObject doc)))
     | _ => True
     end.
Proof.
  assert (Hspot : processEC2Query "/2009-04-04/meta-data/spot"
                  = (go "'termination-time'", None)) by (vm_compute; reflexivity).
  assert (Htime : processEC2Query "/2009-04-04/meta-data/spot/termination-time"
                  = (".metadata.instance.spot.termination_time", None))
    by (vm_compute; reflexivity).
  split; [exact Hspot |]. split; [exact Htime |].
  split; [exact (respond_known_resolves _ _ _ Hspot) |].
  split; [exact (respond_known_resolves _ _ _ Htime) |].
  pose proof (meta_data_stream doc) as Hs. unfold spot_path in Hs.
  destruct (at_path _ _) as [[| | | | |]|]; try exact I.
  exists (default EmptyString (ec2Filters !! "/meta-data")), meta_data_query.
  split; [vm_compute; reflexivity |]. split; [vm_compute; reflexivity |].
  rewrite Hs, names_name_items. intros Hin. apply mem_In in Hin. discriminate Hin.
Qed.

(** ** Documents that are not objects *)

Lemma scan_text_rest (s : string) (v : value) (rest : string) :
  Json.scan_text s = Json.Ok v rest -> rest = EmptyString.
Proof.
  unfold Json.scan_text.
  destruct (Json.scan_value _ _ _) as [v' r | e |]; try discriminate.
  destruct (Json.skip_space r); [| discriminate].
  now intros [= _ <-].
Qed.

(** C10, the claim as stated, fails: the bytes [null] are not a JSON
    object, and [filterMetadata] accepts them, here with the filter of
    [/user-data], and returns the empty byte sequence and no error. *)
Lemma null_document_is_accepted :
  (forall fields,
      Json.scan_text "null" <> Json.Ok (VObject fields) EmptyString)
  /\ Json.scan_text "null" = Json.Ok VNull EmptyString
  /\ ec2Filters !! "/user-data" = Some ".metadata.userdata"
  /\ @filterMetadata json_codec gojq "null" ".metadata.userdata" = (EmptyString, None).
Proof.
  assert (Hnull : Json.scan_text "null" = Json.Ok VNull EmptyString)
    by (vm_compute; reflexivity).
  split; [intros fields; rewrite Hnull; discriminate |].
  split; [exact Hnull |]. split; vm_compute; reflexivity.
Qed.

(** C10, amended: for every filter and every query engine, when the
    document bytes are not a JSON text, or are one whose top-level value is
    an array, a string, a number or a boolean, [Unmarshal] fails and
    [filterMetadata] returns an error and no bytes without running the
    query: the error is that of the filter when it does not parse, and
    that of [Unmarshal] otherwise.  A top-level [null] is accepted and
    gives the empty map. *)
Theorem non_object_document_rejected {engine : QueryEngine} (hw filter : string) :
  match Json.scan_text hw with
  | Json.Ok (VObject _) _ => True
  | Json.Ok VNull _ => Json.Unmarshal hw = inr []
  | _ =>
      exists e,
        Json.Unmarshal hw = inl e
        /\ @filterMetadata json_codec engine hw filter
           = (EmptyString,
              Some (match @Parse engine filter with inl pe => pe | inr _ => e end))
  end.
Proof.
  assert (Hfail : forall e, Json.Unmarshal hw = inl e ->
            @filterMetadata json_codec engine hw filter
            = (EmptyString, Some (match @Parse engine filter with inl pe => pe | inr _ => e end))).
  { intros e He. unfold filterMetadata.
    change (@Unmarshal json_codec hw) with (Json.Unmarshal hw). rewrite He.
    now destruct (@Parse engine filter). }
  unfold Json.Unmarshal in *.
  destruct (Json.scan_text hw) as [[| b | n | s | elems | fields] rest | e |];
    try exact I; try reflexivity; eexists; (split; [reflexivity | now apply Hfail]).
Qed.

(** ** Instances of the conditional statements *)

Lemma filterMetadata_renders_witness :
  @filterMetadata json_codec gojq tagged_document ".metadata.instance.tags[]?"
  = (String "a" (String LF (String "b" EmptyString)), None).
Proof.
  refine (eq_trans
            (proj1 (@filterMetadata_renders json_codec gojq
                      tagged_document ".metadata.instance.tags[]?"
                      tags_query
                      [("metadata",
                        VObject [("instance",
                                  VObject [("tags", VArray [VString "a"; VString "b"])])])]
                      [VString "a"; VString "b"]
                      [String "a" (String LF EmptyString);
                       String "b" (String LF EmptyString)]
                      _ _ _ _))
            _).
  - vm_compute; reflexivity.
  - vm_compute; reflexivity.
  - vm_compute; reflexivity.
  - repeat constructor.
  - vm_compute; reflexivity.
Defined.

Lemma directory_names_resolve_witness :
  is_Some (ec2Filters !! (EmptyString +:+ "/" +:+ "meta-data"))
  /\ snd (processEC2Query ("/2009-04-04" +:+ EmptyString +:+ "/" +:+ "meta-data")) = None.
Proof.
  apply (directory_names_resolve EmptyString (go "'meta-data', 'user-data'")
           (Jq.Binary (Jq.Str "meta-data") Jq.OpComma (Jq.Str "user-data"))
           [] "meta-data").
  - vm_compute; reflexivity.
  - vm_compute; reflexivity.
  - reflexivity.
  - left. reflexivity.
Defined.

Lemma unknown_path_is_terminal_witness :
  processEC2Query "/2009-04-04/meta-data/nonexistent"
  = (EmptyString, Some (Errorf "invalid metadata item: /meta-data/nonexistent"))
  /\ @ec2MetadataHandler json_codec gojq unit
       (fun _ => inr tt) (fun _ => inr scenario_document) (fun _ => "192.0.2.7")
       unknown_request
     = [EvLog "debug" "calling EC2MetadataHandler" None;
        EvMetric "metadata_requests";
        EvLog "info" "Retrieved IP peer IP" None;
        EvLog "debug" "Exported hardware" None;
        EvLog "info" "failed to process ec2 query"
          (Some (Errorf "invalid metadata item: /meta-data/nonexistent"));
        EvWriteHeader 404; EvWrite "404 not found"].
Proof.
  split.
  - refine (eq_trans
              (proj1 (@unknown_path_is_terminal json_codec gojq unit
                        (fun _ => inr tt) (fun _ => inr scenario_document)
                        (fun _ => "192.0.2.7") unknown_request _))
              _).
    + vm_compute; reflexivity.
    + vm_compute; reflexivity.
  - vm_compute; reflexivity.
Defined.

Lemma filterMetadata_fails_whole_witness :
  exists err,
    @filterMetadata json_codec gojq (go "{'metadata':5}") ".metadata.userdata"
    = (EmptyString, Some err).
Proof.
  apply (@filterMetadata_fails_whole json_codec gojq).
  right; right.
  exists (Jq.WithSuffix (Jq.Index "metadata") (Jq.SuffixIndex "userdata")),
    [("metadata", VNumber (Num 5 0))],
    (ExpectedObject (VNumber (Num 5 0))).
  split; [vm_compute; reflexivity |].
  split; [vm_compute; reflexivity |].
  left. vm_compute; reflexivity.
Defined.

Lemma tags_rendering_witness :
  (exists filter,
     processEC2Query "/2009-04-04/meta-data/tags" = (filter, None)
     /\ @filterMetadata json_codec gojq tagged_document filter
        = (String "a" (String LF (String "b" EmptyString)), None))
  /\ (exists filter,
        processEC2Query "/2009-04-04/meta-data/tags" = (filter, None)
        /\ @filterMetadata json_codec gojq (go "{'metadata':{'instance':{'tags':null}}}") filter
           = (EmptyString, None)).
Proof.
  split.
  - apply (tags_rendering tagged_document
             [("metadata",
               VObject [("instance",
                         VObject [("tags", VArray [VString "a"; VString "b"])])])]
             (VArray [VString "a"; VString "b"])).
    + vm_compute; reflexivity.
    + reflexivity.
    + left; reflexivity.
  - apply (tags_rendering (go "{'metadata':{'instance':{'tags':null}}}")
             [("metadata", VObject [("instance", VObject [("tags", VNull)])])]
             VNull).
    + vm_compute; reflexivity.
    + reflexivity.
    + right; reflexivity.
Defined.

(** ** More on path normalisation *)

Lemma strip_prefix_none_slashes (p s : string) (n : nat) :
  no_slash p = true -> strip_prefix p s = None ->
  strip_prefix p (s +:+ slashes n) = None.
Proof.
  revert s. induction p as [|a p IH]; intros s Hp Hs; [discriminate |].
  simpl in Hp. apply andb_true_iff in Hp as [Ha Hp].
  destruct s as [|b s].
  - rewrite append_nil. destruct n as [|n]; [reflexivity |].
    simpl. destruct (Ascii.eqb a "/"); [discriminate | reflexivity].
  - rewrite append_cons. simpl in *.
    destruct (Ascii.eqb a b); [now apply IH | reflexivity].
Qed.

Lemma TrimPrefix_slashes (url : string) (n : nat) :
  TrimPrefix (url +:+ slashes n) "/2009-04-04"
  = TrimPrefix url "/2009-04-04" +:+ slashes n.
Proof.
  unfold TrimPrefix.
  destruct (strip_prefix "/2009-04-04" url) as [r|] eqn:Hs.
  - apply strip_prefix_Some in Hs. subst url.
    now rewrite append_assoc, strip_prefix_append.
  - replace (strip_prefix "/2009-04-04" (url +:+ slashes n)) with (@None string);
      [reflexivity |].
    symmetry. destruct url as [|b url].
    + rewrite append_nil. destruct n as [|n]; [reflexivity |].
      change (strip_prefix "/2009-04-04" (slashes (S n)))
        with (strip_prefix "2009-04-04" (EmptyString +:+ slashes n)).
      now apply strip_prefix_none_slashes.
    + rewrite append_cons.
      change (strip_prefix "/2009-04-04" (String b (url +:+ slashes n)))
        with (if Ascii.eqb "/" b
              then strip_prefix "2009-04-04" (url +:+ slashes n) else None).
      change (strip_prefix "/2009-04-04" (String b url))
        with (if Ascii.eqb "/" b then strip_prefix "2009-04-04" url else None) in Hs.
      destruct (Ascii.eqb "/" b); [| reflexivity].
      now apply strip_prefix_none_slashes.
Qed.

Lemma TrimRight_only_slashes (n : nat) : TrimRight (slashes n) "/" = EmptyString.
Proof.
  induction n as [|n IH]; [reflexivity |].
  change (slashes (S n)) with (String "/" (slashes n)).
  now rewrite TrimRight_cons, IH.
Qed.

Lemma TrimRight_append_slashes (s : string) (n : nat) :
  TrimRight (s +:+ slashes n) "/" = TrimRight s "/".
Proof.
  induction s as [|c s IH].
  - rewrite append_nil. apply TrimRight_only_slashes.
  - now rewrite append_cons, !TrimRight_cons, IH.
Qed.

(** Trailing slashes, however many, do not change what a request path
    resolves to. *)
Theorem processEC2Query_ignores_trailing_slashes (url : string) (n : nat) :
  processEC2Query (url +:+ slashes n) = processEC2Query url.
Proof.
  unfold processEC2Query, canonicalPath.
  now rewrite TrimPrefix_slashes, TrimRight_append_slashes.
Qed.

(** ** More on the rendering loop *)

Section Loop.
Context `{JSONCodec}.

(** Null results leave no trace: the loop gives the same result on a
    stream and on that stream without its nulls. *)
Theorem drain_skips_nulls (iter : list item) (buffer : string) :
  drain iter buffer = drain (List.filter (fun i => negb (is_null_item i)) iter) buffer.
Proof.
  revert buffer. induction iter as [|i iter IH]; intros buffer; [reflexivity |].
  destruct i as [v | e]; [| reflexivity].
  destruct v; simpl; try apply IH; destruct (Marshal _); auto.
Qed.

Lemma drain_prefix (values : list value) (pieces : list string) (rest : list item) :
  Forall2 emits values pieces ->
  forall buffer,
    drain (map Yield values ++ rest)%list buffer = drain rest (buffer +:+ flatten pieces).
Proof.
  induction 1 as [|v p values pieces Hv _ IH]; intros buffer; simpl.
  - now rewrite append_empty_r.
  - destruct Hv as [|s|v text Hnull Hstr Hm].
    + apply IH.
    + rewrite IH. now rewrite !append_assoc.
    + destruct v; try congruence; try (now exfalso; eapply Hstr);
        rewrite Hm, IH; now rewrite !append_assoc.
Qed.
End Loop.

Lemma TrimSuffix_snoc (c : ascii) (s : string) :
  TrimSuffix (s +:+ String c EmptyString) (String c EmptyString) = s.
Proof.
  induction s as [|a s IH].
  - rewrite append_nil. simpl. now rewrite Ascii.eqb_refl.
  - rewrite append_cons.
    change (TrimSuffix (String a (s +:+ String c EmptyString)) (String c EmptyString))
      with (if String.eqb (String a (s +:+ String c EmptyString)) (String c EmptyString)
            then EmptyString
            else String a (TrimSuffix (s +:+ String c EmptyString) (String c EmptyString))).
    replace (String.eqb (String a (s +:+ String c EmptyString)) (String c EmptyString))
      with false.
    + now rewrite IH.
    + simpl. destruct (Ascii.eqb a c); [| reflexivity].
      destruct s; reflexivity.
Qed.

Lemma flatten_lines (s : string) (l : list string) :
  flatten (map (fun x => x +:+ line_feed) (s :: l))
  = String.concat line_feed (s :: l) +:+ line_feed.
Proof.
  revert s. induction l as [|t l IH]; intros s.
  - simpl. now rewrite append_empty_r.
  - change (flatten (map (fun x => x +:+ line_feed) (s :: t :: l)))
      with ((s +:+ line_feed) +:+ flatten (map (fun x => x +:+ line_feed) (t :: l))).
    rewrite IH.
    change (String.concat line_feed (s :: t :: l))
      with (s +:+ line_feed +:+ String.concat line_feed (t :: l)).
    now rewrite !append_assoc.
Qed.

Lemma emits_strings `{JSONCodec} (l : list string) :
  Forall2 emits (map VString l) (map (fun x => x +:+ line_feed) l).
Proof. induction l; constructor; [constructor | assumption]. Qed.

(** A stream of strings renders as the strings joined by line feeds, with
    no line feed at the end, whatever the strings contain. *)
Theorem filterMetadata_joins_strings `{JSONCodec} `{QueryEngine}
    (hw filter : string) (q : Query) (input : list (string * value)) (l : list string) :
  Parse filter = inr q ->
  Unmarshal hw = inr input ->
  Run q (VObject input) = map Yield (map VString l) ->
  filterMetadata hw filter = (String.concat line_feed l, None).
Proof.
  intros Hq Hin Hrun. unfold filterMetadata. rewrite Hq, Hin, Hrun.
  rewrite (drain_emits _ _ (emits_strings l)), append_nil.
  destruct l as [|s l]; [reflexivity |].
  rewrite flatten_lines. unfold line_feed. now rewrite TrimSuffix_snoc.
Qed.

(** The first error of the query is the one returned, wrapped, and what the
    values before it had put in the buffer is discarded. *)
Theorem filterMetadata_first_query_error `{JSONCodec} `{QueryEngine}
    (hw filter : string) (q : Query) (input : list (string * value))
    (values : list value) (pieces : list string) (e : error) (rest : list item) :
  Parse filter = inr q ->
  Unmarshal hw = inr input ->
  Run q (VObject input) = (map Yield values ++ Fail e :: rest)%list ->
  Forall2 emits values pieces ->
  filterMetadata hw filter
  = (EmptyString, Some (Wrap e "error while filtering with gojq")).
Proof.
  intros Hq Hin Hrun Hemit. unfold filterMetadata. rewrite Hq, Hin, Hrun.
  now rewrite (drain_prefix _ _ _ Hemit).
Qed.

(** A value that [Marshal] refuses ends the loop in the same way, with the
    error of [Marshal] wrapped. *)
Theorem filterMetadata_marshal_error `{JSONCodec} `{QueryEngine}
    (hw filter : string) (q : Query) (input : list (string * value))
    (values : list value) (pieces : list string) (v : value) (err : error)
    (rest : list item) :
  Parse filter = inr q ->
  Unmarshal hw = inr input ->
  Run q (VObject input) = (map Yield values ++ Yield v :: rest)%list ->
  Forall2 emits values pieces ->
  v <> VNull -> (forall s, v <> VString s) -> Marshal v = inl err ->
  filterMetadata hw filter
  = (EmptyString, Some (Wrap err "error marshalling jq result")).
Proof.
  intros Hq Hin Hrun Hemit Hnull Hstr Hm. unfold filterMetadata.
  rewrite Hq, Hin, Hrun, (drain_prefix _ _ _ Hemit).
  destruct v; try congruence; try (now exfalso; eapply Hstr); simpl; now rewrite Hm.
Qed.

(** ** Invariants of the table *)

(** Every key of the table is in canonical form, so that every entry can
    be requested: its path resolves to its filter after the version prefix,
    and also without it. *)
Theorem ec2Filters_keys_canonical (k filter : string) :
  ec2Filters !! k = Some filter ->
  canonicalPath k = k
  /\ processEC2Query ("/2009-04-04" +:+ k) = (filter, None)
  /\ processEC2Query k = (filter, None).
Proof.
  intros Hk. apply lookup_entries in Hk.
  computed_in (map_to_list ec2Filters) Hk. simpl in Hk.
  repeat (destruct Hk as [Hk | Hk];
          [injection Hk as <- <-; repeat split; vm_compute; reflexivity |]).
  destruct Hk.
Qed.

Ltac listed :=
  match goal with
  | |- In _ ?s =>
      let r := eval vm_compute in s in
      replace s with r by (vm_compute; reflexivity);
      apply list_elem_of_In; unfold name_item; set_solver
  end.

(** Every entry other than the root is listed by its parent: the part of
    its key before the last slash is the key of a directory, and the query
    of that directory yields the part after the last slash on every
    document on which the walk to [metadata.instance.spot] succeeds; for
    [/meta-data/spot] when that attribute is not null. *)
Theorem every_entry_is_listed (k filter : string) :
  ec2Filters !! k = Some filter ->
  k <> EmptyString ->
  k = dir_name k +:+ "/" +:+ base_name k
  /\ exists pf q,
       ec2Filters !! dir_name k = Some pf /\ Jq.Parse pf = inr q
       /\ Jq.lists_names q = true
       /\ forall doc x,
            at_path spot_path (VObject doc) = Some x ->
            (k = "/meta-data/spot" -> x <> VNull) ->
            In (name_item (base_name k)) (Jq.Run q (VObject doc)).
Proof.
  intros Hk Hroot. apply lookup_entries in Hk.
  computed_in (map_to_list ec2Filters) Hk. simpl in Hk.
  repeat (destruct Hk as [Hk | Hk];
          [ injection Hk as <- <-;
            try (now exfalso; apply Hroot);
            (split; [vm_compute; reflexivity |]);
            eexists; eexists;
            (split; [vm_compute; reflexivity |]);
            (split; [vm_compute; reflexivity |]);
            (split; [vm_compute; reflexivity |]);
            intros doc x Hx Hspot |]);
    [.. | destruct Hk].
  all: match goal with
       | |- In (name_item ?b) _ =>
           let n := eval vm_compute in b in
           replace b with n by (vm_compute; reflexivity)
       end.
  all: try (lazymatch goal with
            | |- context [Jq.SuffixIndex "spot"] => fail
            | _ => idtac
            end; listed).
  all: match goal with
       | |- In _ (Jq.Run ?Q _) =>
           replace Q with meta_data_query by (vm_compute; reflexivity)
       end;
       pose proof (meta_data_stream doc) as Hs; rewrite Hx in Hs;
       destruct x; rewrite Hs;
       try (now exfalso; apply Hspot);
       apply in_map, mem_In; reflexivity.
Qed.

(** Every directory lists its children in strictly increasing
    lexicographic order, on every document, and yields nothing but names,
    or one error and no name. *)
Theorem directories_are_sorted (k filter : string) (q : Jq.query)
    (doc : list (string * value)) :
  ec2Filters !! k = Some filter ->
  Jq.Parse filter = inr q ->
  Jq.lists_names q = true ->
  lexicographic (names (Jq.Run q (VObject doc)))
  /\ (Jq.Run q (VObject doc) = map name_item (names (Jq.Run q (VObject doc)))
      \/ exists e, Jq.Run q (VObject doc) = [Fail e]).
Proof.
  intros Hk Hq Hdir. apply lookup_entries in Hk.
  computed_in (map_to_list ec2Filters) Hk. simpl in Hk.
  repeat (destruct Hk as [Hk | Hk];
          [ injection Hk as <- <-;
            match type of Hq with ?p = _ => computed_in p Hq end;
            injection Hq as <-;
            match type of Hdir with ?b = _ => computed_in b Hdir end;
            try discriminate Hdir | ]);
    [.. | destruct Hk].
  all: try (lazymatch goal with
            | |- context [Jq.SuffixIndex "spot"] => fail
            | _ => idtac
            end;
            match goal with
            | |- context [Jq.Run ?Q ?v] =>
                let r := eval vm_compute in (Jq.Run Q v) in
                replace (Jq.Run Q v) with r by (vm_compute; reflexivity)
            end;
            split; [lexicographic_list | left; reflexivity]).
  match goal with
  | |- context [Jq.Run ?Q _] =>
      replace Q with meta_data_query by (vm_compute; reflexivity)
  end.
  pose proof (meta_data_stream doc) as Hs.
  destruct (at_path spot_path (VObject doc)) as [x|].
  - destruct x; rewrite Hs, names_name_items;
      (split; [lexicographic_list | left; reflexivity]).
  - destruct Hs as [e ->]. split; [constructor | right; now exists e].
Qed.

(** ** What the handlers answer *)

Section Answers.
Context {codec : JSONCodec} {engine : QueryEngine}.
Context {Hardware : Type}.
Variable ByIP : string -> error + Hardware.
Variable Export : Hardware -> error + string.
Variable SplitHostPort : string -> string.

Lemma drain_error_no_bytes (iter : list item) (buffer : string) (e : error) :
  snd (drain iter buffer) = Some e -> fst (drain iter buffer) = EmptyString.
Proof.
  revert buffer. induction iter as [|i iter IH]; intros buffer; [discriminate |].
  destruct i as [v | e']; [| reflexivity].
  destruct v; simpl; try apply IH; destruct (Marshal _); auto.
Qed.

Lemma filterMetadata_error_no_bytes (hw filter : string) (e : error) :
  snd (filterMetadata hw filter) = Some e -> fst (filterMetadata hw filter) = EmptyString.
Proof.
  unfold filterMetadata.
  destruct (Parse filter) as [pe | q]; [reflexivity |].
  destruct (Unmarshal hw) as [ue | input]; [reflexivity |].
  apply drain_error_no_bytes.
Qed.

Lemma response_respond (ehw path : string) :
  response (respond ehw path)
  = match processEC2Query path with
    | (_, Some _) => (Some 404%nat, "404 not found")
    | (filter, None) => (Some 200%nat, fst (filterMetadata ehw filter))
    end.
Proof.
  unfold respond. destruct (processEC2Query path) as [filter [err|]]; [reflexivity |].
  destruct (filterMetadata ehw filter) as [resp [e|]]; unfold response; simpl;
    now rewrite append_empty_r.
Qed.

(** What the client of [ec2MetadataHandler] receives, stage by stage. *)
Lemma ec2MetadataHandler_response (r : Request) :
  response (ec2MetadataHandler ByIP Export SplitHostPort r)
  = if negb (String.eqb (Method r) "GET") then (Some 405%nat, EmptyString)
    else if String.eqb (getIPFromRequest SplitHostPort r) EmptyString
         then (None, EmptyString)
         else match ByIP (getIPFromRequest SplitHostPort r) with
              | inl _ => (Some 404%nat, EmptyString)
              | inr hw =>
                  match Export hw with
                  | inl _ => (Some 500%nat, "404 not found")
                  | inr ehw => response (respond ehw (URLPath r))
                  end
              end.
Proof.
  unfold ec2MetadataHandler.
  destruct (negb _); [reflexivity |].
  destruct (String.eqb _ _); [reflexivity |].
  destruct (ByIP _) as [e | hw]; [reflexivity |].
  destruct (Export hw) as [e | ehw]; reflexivity.
Qed.


(** When the path resolves and the filter fails, [ec2MetadataHandler] logs
    the failure and still answers 200, with an empty body. *)
Theorem ec2MetadataHandler_filter_failure (r : Request) (hw : Hardware)
    (ehw filter : string) (e : error) :
  Method r = "GET" ->
  getIPFromRequest SplitHostPort r <> EmptyString ->
  ByIP (getIPFromRequest SplitHostPort r) = inr hw ->
  Export hw = inr ehw ->
  processEC2Query (URLPath r) = (filter, None) ->
  snd (filterMetadata ehw filter) = Some e ->
  response (ec2MetadataHandler ByIP Export SplitHostPort r) = (Some 200%nat, EmptyString)
  /\ In (EvLog "info" "failed to filter metadata" (Some e))
       (ec2MetadataHandler ByIP Export SplitHostPort r).
Proof.
  intros Hm Hip Hhw Hex Hp He. split.
  - rewrite ec2MetadataHandler_response, Hm. simpl.
    apply String.eqb_neq in Hip. rewrite Hip, Hhw, Hex, response_respond, Hp.
    now rewrite (filterMetadata_error_no_bytes _ _ _ He).
  - unfold ec2MetadataHandler. rewrite Hm. simpl.
    apply String.eqb_neq in Hip. rewrite Hip, Hhw, Hex.
    do 4 right. unfold respond. rewrite Hp.
    destruct (filterMetadata ehw filter) as [resp [e'|]]; [| discriminate He].
    injection He as ->. right. left. reflexivity.
Qed.




Variable TinkServer : string.
Variable Kubernetes : string.

(** For a data model other than the two filtered ones,
    [getMetadataHandler] writes the exported document as it is: the filter,
    the codec and the engine play no part. *)
Theorem getMetadataHandler_unfiltered (filter model : string) (r : Request)
    (hw : Hardware) (hardware : string) :
  Method r = "GET" ->
  getIPFromRequest SplitHostPort r <> EmptyString ->
  ByIP (getIPFromRequest SplitHostPort r) = inr hw ->
  Export hw = inr hardware ->
  model <> TinkServer -> model <> Kubernetes ->
  response (getMetadataHandler ByIP Export SplitHostPort TinkServer Kubernetes
              filter model r)
  = (Some 200%nat, hardware)
  /\ Forall (fun e => is_filter_call e = false)
       (getMetadataHandler ByIP Export SplitHostPort TinkServer Kubernetes
          filter model r).
Proof.
  intros Hm Hip Hhw Hex Ht Hk. unfold getMetadataHandler.
  apply String.eqb_neq in Hip, Ht, Hk.
  rewrite Hm, Hip, Hhw, Hex, Ht, Hk. simpl.
  split; [unfold response; simpl; now rewrite append_empty_r | repeat constructor].
Qed.

(** For the two filtered data models, a filter failure makes
    [getMetadataHandler] answer 500 with no body, where
    [ec2MetadataHandler] answers 200. *)
Theorem getMetadataHandler_filter_failure (filter model : string) (r : Request)
    (hw : Hardware) (hardware : string) (e : error) :
  Method r = "GET" ->
  getIPFromRequest SplitHostPort r <> EmptyString ->
  ByIP (getIPFromRequest SplitHostPort r) = inr hw ->
  Export hw = inr hardware ->
  model = TinkServer \/ model = Kubernetes ->
  snd (filterMetadata hardware filter) = Some e ->
  response (getMetadataHandler ByIP Export SplitHostPort TinkServer Kubernetes
              filter model r)
  = (Some 500%nat, EmptyString).
Proof.
  intros Hm Hip Hhw Hex Hmodel He. unfold getMetadataHandler.
  apply String.eqb_neq in Hip.
  rewrite Hm, Hip, Hhw, Hex. simpl.
  replace (String.eqb model TinkServer || String.eqb model Kubernetes) with true.
  - destruct (filterMetadata hardware filter) as [b [e'|]]; [reflexivity | discriminate].
  - symmetry. apply orb_true_iff.
    destruct Hmodel as [-> | ->]; [left | right]; apply String.eqb_refl.
Qed.

(** On a path that resolves to a filter that succeeds, [ec2MetadataHandler]
    answers what [getMetadataHandler] answers with that filter under a
    filtered data model. *)
Theorem handlers_agree_on_success (model : string) (r : Request)
    (hw : Hardware) (ehw filter : string) :
  Method r = "GET" ->
  getIPFromRequest SplitHostPort r <> EmptyString ->
  ByIP (getIPFromRequest SplitHostPort r) = inr hw ->
  Export hw = inr ehw ->
  model = TinkServer \/ model = Kubernetes ->
  processEC2Query (URLPath r) = (filter, None) ->
  snd (filterMetadata ehw filter) = None ->
  response (ec2MetadataHandler ByIP Export SplitHostPort r)
  = response (getMetadataHandler ByIP Export SplitHostPort TinkServer Kubernetes
                filter model r)
  /\ response (ec2MetadataHandler ByIP Export SplitHostPort r)
     = (Some 200%nat, fst (filterMetadata ehw filter)).
Proof.
  intros Hm Hip Hhw Hex Hmodel Hp Hok.
  assert (Hec2 : response (ec2MetadataHandler ByIP Export SplitHostPort r)
                 = (Some 200%nat, fst (filterMetadata ehw filter))).
  { rewrite ec2MetadataHandler_response, Hm. simpl.
    apply String.eqb_neq in Hip. now rewrite Hip, Hhw, Hex, response_respond, Hp. }
  split; [| exact Hec2]. rewrite Hec2.
  unfold getMetadataHandler. apply String.eqb_neq in Hip.
  rewrite Hm, Hip, Hhw, Hex. simpl.
  replace (String.eqb model TinkServer || String.eqb model Kubernetes) with true.
  - destruct (filterMetadata ehw filter) as [b [e'|]]; [discriminate |].
    unfold response. simpl. now rewrite append_empty_r.
  - symmetry. apply orb_true_iff.
    destruct Hmodel as [-> | ->]; [left | right]; apply String.eqb_refl.
Qed.
End Answers.

(** ** Leaf filters *)

Lemma follow_app (p1 p2 : list string) (s : list item) :
  follow (p1 ++ p2)%list s = follow p2 (follow p1 s).
Proof. revert s. induction p1 as [|k p1 IH]; intros s; [reflexivity | apply IH]. Qed.

Lemma field_path_defined (q : Jq.query) (p : list string) :
  field_path q = Some p -> Jq.undefined_function q = None.
Proof.
  revert p. induction q; intros p Hp; try discriminate; [reflexivity |].
  destruct s; try discriminate. simpl in Hp.
  destruct (field_path q) as [p'|]; [| discriminate]. simpl. eauto.
Qed.

Lemma eval_field_path (q : Jq.query) (p : list string) (v : value) :
  field_path q = Some p -> Jq.eval q v = follow p [Yield v].
Proof.
  revert p. induction q; intros p Hp; try discriminate.
  - injection Hp as <-.
    change (follow [name] [Yield v]) with (Jq.and_then [Jq.index name v] []).
    now rewrite and_then_single.
  - destruct s; try discriminate. simpl in Hp.
    destruct (field_path q) as [p'|] eqn:Hq; [| discriminate].
    injection Hp as <-. rewrite follow_app. simpl. now rewrite (IHq p').
Qed.



Lemma and_then_try (s : list item) : Jq.and_then (Jq.try s) [] = Jq.try s.
Proof.
  induction s as [|i s IH]; [reflexivity |].
  destruct i; [simpl; now rewrite IH | reflexivity].
Qed.

Lemma try_yields (vs : list value) : Jq.try (map Yield vs) = map Yield vs.
Proof. induction vs as [|v vs IH]; [reflexivity | simpl; now rewrite IH]. Qed.


(** What a query of the form [.a.b.c[]?] yields. *)
Lemma iterated_path_stream (q : Jq.query) (p : list string) (v : value) :
  iterated_path q = Some p ->
  match at_path p v with
  | Some x => Jq.Run q v = Jq.try (Jq.iterate x)
  | None => exists e, Jq.Run q v = [Fail e]
  end.
Proof.
  intros Hp.
  destruct q as [| | | | | | | | | | | t s |]; try discriminate Hp.
  destruct t as [| | | | | | | | | | | q s' |]; try discriminate Hp;
    destruct s'; try discriminate Hp; destruct s; try discriminate Hp.
  change (field_path q = Some p) in Hp. unfold Jq.Run.
  change (Jq.undefined_function (Jq.WithSuffix (Jq.WithSuffix q Jq.SuffixIter)
                                   Jq.SuffixOptional))
    with (Jq.undefined_function q).
  rewrite (field_path_defined _ _ Hp).
  change (Jq.eval (Jq.WithSuffix (Jq.WithSuffix q Jq.SuffixIter) Jq.SuffixOptional) v)
    with (Jq.for_each (Jq.eval q v) (fun x => Jq.try (Jq.iterate x))).
  rewrite (eval_field_path _ _ v Hp).
  pose proof (follow_at_path p v) as Hs.
  destruct (at_path p v) as [x|].
  - rewrite Hs. simpl. apply and_then_try.
  - destruct Hs as [e ->]. now exists e.
Qed.

(** A filter of the form [.a.b.c[]?] on an attribute that is a list of
    strings renders the strings joined by line feeds. *)
Theorem list_filter_rendering (hw filter : string) (q : Jq.query)
    (path : list string) (doc : list (string * value)) (l : list string) :
  Jq.Parse filter = inr q ->
  iterated_path q = Some path ->
  Json.Unmarshal hw = inr doc ->
  at_path path (VObject doc) = Some (VArray (map VString l)) ->
  @filterMetadata json_codec gojq hw filter = (String.concat line_feed l, None).
Proof.
  intros Hq Hp Hdoc Hl.
  apply (@filterMetadata_joins_strings json_codec gojq hw filter q doc l Hq Hdoc).
  pose proof (iterated_path_stream q path (VObject doc) Hp) as Hs.
  rewrite Hl in Hs. change (@Run gojq q (VObject doc)) with (Jq.Run q (VObject doc)).
  rewrite Hs. apply try_yields.
Qed.

(** Such a filter renders nothing, and reports no error, when the
    attribute is missing, null, or a string, number or boolean. *)
Theorem list_filter_tolerates_scalars (hw filter : string) (q : Jq.query)
    (path : list string) (doc : list (string * value)) (x : value) :
  Jq.Parse filter = inr q ->
  iterated_path q = Some path ->
  Json.Unmarshal hw = inr doc ->
  at_path path (VObject doc) = Some x ->
  scalar x = true ->
  @filterMetadata json_codec gojq hw filter = (EmptyString, None).
Proof.
  intros Hq Hp Hdoc Hx Hscalar. rewrite filterMetadata_unfold, Hq, Hdoc.
  pose proof (iterated_path_stream q path (VObject doc) Hp) as Hs.
  rewrite Hx in Hs. rewrite Hs.
  destruct x; try discriminate; reflexivity.
Qed.

(** ** Address filters *)







Lemma IndexByte_none (s : string) (c : ascii) :
  ContainsRune s c = false -> Net.IndexByte s c = None.
Proof.
  induction s as [|a s IH]; [reflexivity |]. simpl.
  intros Hc. apply orb_false_iff in Hc as [Ha Hs].
  now rewrite Ha, (IH Hs).
Qed.

Lemma LastIndexByte_none (s : string) (c : ascii) :
  ContainsRune s c = false -> Net.LastIndexByte s c = None.
Proof.
  induction s as [|a s IH]; [reflexivity |]. simpl.
  intros Hc. apply orb_false_iff in Hc as [Ha Hs].
  now rewrite Ha, (IH Hs).
Qed.

Lemma ContainsRune_append (s t : string) (c : ascii) :
  ContainsRune (s +:+ t) c = ContainsRune s c || ContainsRune t c.
Proof.
  induction s as [|a s IH]; [reflexivity |].
  rewrite append_cons. simpl. now rewrite IH, orb_assoc.
Qed.

Lemma IndexByte_some (s : string) (c : ascii) :
  ContainsRune s c = true -> exists i, Net.IndexByte s c = Some i.
Proof.
  induction s as [|a s IH]; [discriminate |]. simpl.
  destruct (Ascii.eqb a c); [eauto |]. simpl. intros Hs.
  destruct (IH Hs) as [i ->]. eauto.
Qed.

(** The last colon of [host:port] is the one before the port. *)
Lemma LastIndexByte_colon (host port : string) :
  ContainsRune port ":" = false ->
  Net.LastIndexByte (host +:+ String ":" port) ":" = Some (String.length host).
Proof.
  intros Hp. induction host as [|a host IH].
  - rewrite append_nil. simpl. now rewrite (LastIndexByte_none _ _ Hp).
  - rewrite append_cons. simpl. now rewrite IH.
Qed.

Lemma substring_prefix (s t : string) :
  String.substring 0 (String.length s) (s +:+ t) = s.
Proof.
  induction s as [|a s IH]; [now destruct t |].
  rewrite append_cons. simpl. now rewrite IH.
Qed.

Lemma substring_whole (s : string) : String.substring 0 (String.length s) s = s.
Proof. induction s as [|a s IH]; [reflexivity | simpl; now rewrite IH]. Qed.

Lemma substring_skip (s t : string) (m : nat) :
  String.substring (String.length s) m (s +:+ t) = String.substring 0 m t.
Proof.
  induction s as [|a s IH]; [reflexivity |]. rewrite append_cons. exact IH.
Qed.

Lemma length_append (s t : string) :
  String.length (s +:+ t) = (String.length s + String.length t)%nat.
Proof.
  induction s as [|a s IH]; [reflexivity |]. rewrite append_cons. simpl. now rewrite IH.
Qed.

Lemma slice_from_append (s t : string) :
  Net.slice_from (String.length s) (s +:+ t) = t.
Proof.
  unfold Net.slice_from. rewrite length_append, substring_skip.
  replace (String.length s + String.length t - String.length s)%nat
    with (String.length t) by lia.
  apply substring_whole.
Qed.

Lemma slice_from_zero (s : string) : Net.slice_from 0 s = s.
Proof. unfold Net.slice_from. rewrite Nat.sub_0_r. apply substring_whole. Qed.

Lemma plain_parts (s : string) :
  plain s = true ->
  ContainsRune s ":" = false /\ ContainsRune s "[" = false /\ ContainsRune s "]" = false.
Proof.
  unfold plain. intros Hs.
  apply andb_true_iff in Hs as [Hs H3]. apply andb_true_iff in Hs as [H1 H2].
  repeat split; now apply negb_true_iff.
Qed.

Lemma not_bracketed (host rest : string) :
  ContainsRune host "[" = false ->
  match host +:+ String ":" rest with
  | String c _ => Ascii.eqb c "["
  | EmptyString => false
  end = false.
Proof.
  destruct host as [|a host]; [reflexivity |]. rewrite append_cons. simpl.
  intros Hc. now apply orb_false_iff in Hc as [Ha _].
Qed.

(** [net.SplitHostPort] splits [host:port] into its two parts when neither
    has a colon or a square bracket. *)
Lemma SplitHostPort_plain (host port : string) :
  plain host = true -> plain port = true ->
  Net.SplitHostPort (host +:+ String ":" port) = (host, port, None).
Proof.
  intros Hh Hp.
  apply plain_parts in Hh as (Hh1 & Hh2 & Hh3).
  apply plain_parts in Hp as (Hp1 & Hp2 & Hp3).
  unfold Net.SplitHostPort.
  rewrite (LastIndexByte_colon _ _ Hp1), (not_bracketed _ _ Hh2).
  rewrite substring_prefix, (IndexByte_none _ _ Hh1), slice_from_zero.
  rewrite !IndexByte_none
    by (rewrite ContainsRune_append; simpl; now rewrite ?Hh2, ?Hh3, ?Hp2, ?Hp3).
  replace (String.length host + 1)%nat with (String.length (host +:+ ":"))
    by (rewrite length_append; reflexivity).
  replace (host +:+ String ":" port) with ((host +:+ ":") +:+ port)
    by (now rewrite append_assoc).
  now rewrite slice_from_append.
Qed.

(** It refuses an address with more than one colon that does not start
    with a square bracket. *)
Lemma SplitHostPort_too_many_colons (a b c : string) :
  ContainsRune a "[" = false ->
  ContainsRune c ":" = false ->
  Net.host_of (a +:+ String ":" (b +:+ String ":" c)) = EmptyString.
Proof.
  intros Ha Hc. unfold Net.host_of, Net.SplitHostPort.
  rewrite (not_bracketed _ _ Ha).
  replace (a +:+ String ":" (b +:+ String ":" c))
    with ((a +:+ String ":" b) +:+ String ":" c)
    by (now rewrite append_assoc, append_cons).
  rewrite (LastIndexByte_colon _ _ Hc), substring_prefix.
  destruct (IndexByte_some (a +:+ String ":" b) ":") as [i ->]; [| reflexivity].
  rewrite ContainsRune_append. simpl. apply orb_true_r.
Qed.

(** For a peer address of the form [host:port] whose parts have no colon
    and no square bracket, [getIPFromRequest] is the host. *)
Theorem getIPFromRequest_host_port (method path host port : string) :
  plain host = true -> plain port = true ->
  getIPFromRequest Net.host_of
    {| Method := method; RemoteAddr := host +:+ String ":" port; URLPath := path |}
  = host.
Proof.
  intros Hh Hp. unfold getIPFromRequest. cbn [RemoteAddr].
  rewrite ContainsRune_append. cbn [ContainsRune].
  rewrite Ascii.eqb_refl, orb_true_r.
  unfold Net.host_of. now rewrite SplitHostPort_plain.
Qed.

(** A peer address with two or more colons that does not start with a
    square bracket, such as a bare IPv6 address, gives no peer: both
    handlers stop without writing a response, and only
    [ec2MetadataHandler] logs it. *)
Theorem unbracketed_colons_give_no_peer {codec : JSONCodec} {engine : QueryEngine}
    {Hardware : Type} (ByIP : string -> error + Hardware)
    (Export : Hardware -> error + string) (TinkServer Kubernetes : string)
    (filter model path a b c : string) :
  ContainsRune a "[" = false ->
  ContainsRune c ":" = false ->
  let r := {| Method := "GET";
              RemoteAddr := a +:+ String ":" (b +:+ String ":" c);
              URLPath := path |} in
  getIPFromRequest Net.host_of r = EmptyString
  /\ @ec2MetadataHandler codec engine _ ByIP Export Net.host_of r
     = [EvLog "debug" "calling EC2MetadataHandler" None;
        EvLog "info" "Could not retrieve IP address" None]
  /\ @getMetadataHandler codec engine _ ByIP Export Net.host_of TinkServer Kubernetes
       filter model r
     = [EvLog "debug" "retrieving metadata" None].
Proof.
  intros Ha Hc r.
  assert (Hip : getIPFromRequest Net.host_of r = EmptyString).
  { unfold getIPFromRequest, r. cbn [RemoteAddr].
    rewrite ContainsRune_append. cbn [ContainsRune].
    rewrite Ascii.eqb_refl, orb_true_r. now apply SplitHostPort_too_many_colons. }
  split; [exact Hip |].
  unfold ec2MetadataHandler, getMetadataHandler. rewrite Hip. split; reflexivity.
Qed.

(** ** Instances of the further statements *)

Lemma filterMetadata_joins_strings_witness :
  @filterMetadata json_codec gojq tagged_document ".metadata.instance.tags[]?"
  = (String.concat line_feed ["a"; "b"], None).
Proof.
  apply (@filterMetadata_joins_strings json_codec gojq
           tagged_document ".metadata.instance.tags[]?" tags_query
           [("metadata",
             VObject [("instance", VObject [("tags", VArray [VString "a"; VString "b"])])])]
           ["a"; "b"]).
  - vm_compute; reflexivity.
  - vm_compute; reflexivity.
  - vm_compute; reflexivity.
Defined.

Lemma filterMetadata_first_query_error_witness :
  @filterMetadata json_codec gojq
    (go "{'metadata':{'instance':{'tags':['a']},'userdata':7}}")
    ".metadata.instance.tags[], .metadata.userdata.x"
  = (EmptyString,
     Some (Wrap (ExpectedObject (VNumber (Num 7 0))) "error while filtering with gojq")).
Proof.
  eapply (@filterMetadata_first_query_error json_codec gojq _ _ _ _
            [VString "a"] ["a" +:+ line_feed] _ []).
  - vm_compute; reflexivity.
  - vm_compute; reflexivity.
  - vm_compute; reflexivity.
  - repeat constructor.
Defined.

Lemma filterMetadata_marshal_error_witness :
  @filterMetadata refusing_codec gojq
    (go "{'metadata':{'instance':{'tags':['a'],'id':7}}}")
    ".metadata.instance.tags[], .metadata.instance.id"
  = (EmptyString, Some (Wrap UnsupportedValueError "error marshalling jq result")).
Proof.
  eapply (@filterMetadata_marshal_error refusing_codec gojq _ _ _ _
            [VString "a"] ["a" +:+ line_feed] (VNumber (Num 7 0)) _ []).
  - vm_compute; reflexivity.
  - vm_compute; reflexivity.
  - vm_compute; reflexivity.
  - repeat constructor.
  - discriminate.
  - discriminate.
  - reflexivity.
Defined.

Lemma ec2Filters_keys_canonical_witness :
  canonicalPath "/meta-data/operating-system/slug" = "/meta-data/operating-system/slug"
  /\ processEC2Query ("/2009-04-04" +:+ "/meta-data/operating-system/slug")
     = (".metadata.instance.operating_system.slug", None)
  /\ processEC2Query "/meta-data/operating-system/slug"
     = (".metadata.instance.operating_system.slug", None).
Proof.
  apply (ec2Filters_keys_canonical "/meta-data/operating-system/slug"
           ".metadata.instance.operating_system.slug").
  vm_compute; reflexivity.
Defined.

Lemma every_entry_is_listed_witness :
  "/meta-data/spot" = dir_name "/meta-data/spot" +:+ "/" +:+ base_name "/meta-data/spot"
  /\ exists pf q,
       ec2Filters !! dir_name "/meta-data/spot" = Some pf /\ Jq.Parse pf = inr q
       /\ Jq.lists_names q = true
       /\ forall doc x,
            at_path spot_path (VObject doc) = Some x ->
            ("/meta-data/spot" = "/meta-data/spot" -> x <> VNull) ->
            In (name_item (base_name "/meta-data/spot")) (Jq.Run q (VObject doc)).
Proof.
  apply (every_entry_is_listed "/meta-data/spot" (go "'termination-time'")).
  - vm_compute; reflexivity.
  - discriminate.
Defined.

Lemma directories_are_sorted_witness :
  lexicographic
    (names (Jq.Run meta_data_query
              (VObject [("metadata", VObject [("instance", VObject [("spot", VBool true)])])])))
  /\ (Jq.Run meta_data_query
        (VObject [("metadata", VObject [("instance", VObject [("spot", VBool true)])])])
      = map name_item
          (names (Jq.Run meta_data_query
                    (VObject [("metadata",
                               VObject [("instance", VObject [("spot", VBool true)])])])))
      \/ exists e,
          Jq.Run meta_data_query
            (VObject [("metadata", VObject [("instance", VObject [("spot", VBool true)])])])
          = [Fail e]).
Proof.
  apply (directories_are_sorted "/meta-data"
           (default EmptyString (ec2Filters !! "/meta-data"))).
  - vm_compute; reflexivity.
  - vm_compute; reflexivity.
  - reflexivity.
Defined.

Lemma ec2MetadataHandler_filter_failure_witness :
  response (@ec2MetadataHandler json_codec gojq unit
              (fun _ => inr tt) (fun _ => inr misshapen_document) Net.host_of
              (sample_request "/2009-04-04/user-data"))
  = (Some 200%nat, EmptyString)
  /\ In (EvLog "info" "failed to filter metadata"
           (Some (Wrap (ExpectedObject (VNumber (Num 5 0)))
                    "error while filtering with gojq")))
       (@ec2MetadataHandler json_codec gojq unit
          (fun _ => inr tt) (fun _ => inr misshapen_document) Net.host_of
          (sample_request "/2009-04-04/user-data")).
Proof.
  apply (@ec2MetadataHandler_filter_failure json_codec gojq unit
           (fun _ => inr tt) (fun _ => inr misshapen_document) Net.host_of
           (sample_request "/2009-04-04/user-data") tt misshapen_document
           ".metadata.userdata").
  - reflexivity.
  - vm_compute; discriminate.
  - reflexivity.
  - reflexivity.
  - vm_compute; reflexivity.
  - vm_compute; reflexivity.
Defined.

Lemma getMetadataHandler_unfiltered_witness :
  response (@getMetadataHandler json_codec gojq unit
              (fun _ => inr tt) (fun _ => inr scenario_document) Net.host_of
              "1" "kubernetes" ".metadata" "cacher" (sample_request "/metadata"))
  = (Some 200%nat, scenario_document)
  /\ Forall (fun e => is_filter_call e = false)
       (@getMetadataHandler json_codec gojq unit
          (fun _ => inr tt) (fun _ => inr scenario_document) Net.host_of
          "1" "kubernetes" ".metadata" "cacher" (sample_request "/metadata")).
Proof.
  apply (@getMetadataHandler_unfiltered json_codec gojq unit
           (fun _ => inr tt) (fun _ => inr scenario_document) Net.host_of
           "1" "kubernetes" ".metadata" "cacher" (sample_request "/metadata")
           tt scenario_document).
  - reflexivity.
  - vm_compute; discriminate.
  - reflexivity.
  - reflexivity.
  - discriminate.
  - discriminate.
Defined.

Lemma getMetadataHandler_filter_failure_witness :
  response (@getMetadataHandler json_codec gojq unit
              (fun _ => inr tt) (fun _ => inr misshapen_document) Net.host_of
              "1" "kubernetes" ".metadata.userdata" "kubernetes"
              (sample_request "/metadata"))
  = (Some 500%nat, EmptyString).
Proof.
  apply (@getMetadataHandler_filter_failure json_codec gojq unit
           (fun _ => inr tt) (fun _ => inr misshapen_document) Net.host_of
           "1" "kubernetes" ".metadata.userdata" "kubernetes"
           (sample_request "/metadata") tt misshapen_document
           (Wrap (ExpectedObject (VNumber (Num 5 0))) "error while filtering with gojq")).
  - reflexivity.
  - vm_compute; discriminate.
  - reflexivity.
  - reflexivity.
  - right; reflexivity.
  - vm_compute; reflexivity.
Defined.

Lemma handlers_agree_on_success_witness :
  response (@ec2MetadataHandler json_codec gojq unit
              (fun _ => inr tt) (fun _ => inr scenario_document) Net.host_of
              (sample_request "/2009-04-04/meta-data/hostname"))
  = response (@getMetadataHandler json_codec gojq unit
                (fun _ => inr tt) (fun _ => inr scenario_document) Net.host_of
                "1" "kubernetes" ".metadata.instance.hostname" "1"
                (sample_request "/2009-04-04/meta-data/hostname"))
  /\ response (@ec2MetadataHandler json_codec gojq unit
                 (fun _ => inr tt) (fun _ => inr scenario_document) Net.host_of
                 (sample_request "/2009-04-04/meta-data/hostname"))
     = (Some 200%nat,
        fst (@filterMetadata json_codec gojq scenario_document
               ".metadata.instance.hostname")).
Proof.
  apply (@handlers_agree_on_success json_codec gojq unit
           (fun _ => inr tt) (fun _ => inr scenario_document) Net.host_of
           "1" "kubernetes" "1" (sample_request "/2009-04-04/meta-data/hostname")
           tt scenario_document ".metadata.instance.hostname").
  - reflexivity.
  - vm_compute; discriminate.
  - reflexivity.
  - reflexivity.
  - left; reflexivity.
  - vm_compute; reflexivity.
  - vm_compute; reflexivity.
Defined.


Lemma list_filter_rendering_witness :
  @filterMetadata json_codec gojq
    (go "{'metadata':{'instance':{'ssh_keys':['k1','k2','k3']}}}")
    ".metadata.instance.ssh_keys[]?"
  = (String.concat line_feed ["k1"; "k2"; "k3"], None).
Proof.
  apply (list_filter_rendering
           (go "{'metadata':{'instance':{'ssh_keys':['k1','k2','k3']}}}")
           ".metadata.instance.ssh_keys[]?"
           (Jq.WithSuffix
              (Jq.WithSuffix
                 (Jq.WithSuffix
                    (Jq.WithSuffix (Jq.Index "metadata") (Jq.SuffixIndex "instance"))
                    (Jq.SuffixIndex "ssh_keys"))
                 Jq.SuffixIter)
              Jq.SuffixOptional)
           ["metadata"; "instance"; "ssh_keys"]
           [("metadata",
             VObject [("instance",
                       VObject [("ssh_keys",
                                 VArray [VString "k1"; VString "k2"; VString "k3"])])])]
           ["k1"; "k2"; "k3"]).
  - vm_compute; reflexivity.
  - reflexivity.
  - vm_compute; reflexivity.
  - reflexivity.
Defined.

Lemma list_filter_tolerates_scalars_witness :
  @filterMetadata json_codec gojq
    (go "{'metadata':{'instance':{'tags':'not a list'}}}") ".metadata.instance.tags[]?"
  = (EmptyString, None).
Proof.
  apply (list_filter_tolerates_scalars
           (go "{'metadata':{'instance':{'tags':'not a list'}}}")
           ".metadata.instance.tags[]?" tags_query tags_path
           [("metadata", VObject [("instance", VObject [("tags", VString "not a list")])])]
           (VString "not a list")).
  - vm_compute; reflexivity.
  - reflexivity.
  - vm_compute; reflexivity.
  - reflexivity.
  - reflexivity.
Defined.


Lemma getIPFromRequest_host_port_witness :
  getIPFromRequest Net.host_of (sample_request "/2009-04-04/meta-data") = "192.0.2.7".
Proof.
  apply (getIPFromRequest_host_port "GET" "/2009-04-04/meta-data" "192.0.2.7" "4242");
    reflexivity.
Defined.

Lemma unbracketed_colons_give_no_peer_witness :
  getIPFromRequest Net.host_of
    {| Method := "GET"; RemoteAddr := "2001:db8::1"; URLPath := "/2009-04-04/meta-data" |}
  = EmptyString.
Proof.
  apply (@unbracketed_colons_give_no_peer json_codec gojq unit
           (fun _ => inr tt) (fun _ => inr scenario_document) "1" "kubernetes"
           ".metadata" "1" "/2009-04-04/meta-data" "2001" "db8:" "1");
    reflexivity.
Defined.

(** ** The decoder never runs out of budget *)

Lemma skip_space_length (s : string) :
  (String.length (Json.skip_space s) <= String.length s)%nat.
Proof.
  induction s as [|c s IH]; [reflexivity |]. simpl.
  destruct (Json.is_space c); simpl; lia.
Qed.

Lemma within_mono {A : Type} (N M : nat) (res : Json.result A) :
  within N res -> (N <= M)%nat -> within M res.
Proof.
  intros [H1 H2] Hle. split; [exact H1 |].
  intros a r Hok. specialize (H2 _ _ Hok). lia.
Qed.

Lemma within_Err {A : Type} (N : nat) (e : error) : within N (@Json.Err A e).
Proof. split; [discriminate | intros; discriminate]. Qed.

Lemma within_Ok {A : Type} (N : nat) (a : A) (r : string) :
  (String.length r < N)%nat -> within N (Json.Ok a r).
Proof. intros Hr. split; [discriminate |]. now intros a' r' [= _ <-]. Qed.

Lemma within_prepend (N : nat) (p : string) (res : Json.result string) :
  within N res -> within N (Json.prepend p res).
Proof.
  intros [H1 H2]. destruct res; simpl; [| apply within_Err | contradiction].
  apply within_Ok. eauto.
Qed.

Ltac within_cases Hrec :=
  repeat first
    [ apply within_Err
    | apply within_prepend
    | apply within_Ok; simpl in *; lia
    | apply Hrec; simpl in *; lia
    | match goal with
      | |- within _ (if ?b then _ else _) => destruct b
      | |- within _ (match ?x with _ => _ end) => destruct x
      end ].

Lemma scan_string_within (n : nat) :
  forall s pending, (String.length s <= n)%nat ->
    within (String.length s) (Json.scan_string pending s).
Proof.
  induction n as [|n IH]; intros s pending Hn.
  - destruct s; [apply within_Err | simpl in Hn; lia].
  - destruct s as [|c r]; [apply within_Err |].
    simpl in Hn.
    assert (Hrec : forall s' p, (String.length s' <= String.length r)%nat ->
              within (S (String.length r)) (Json.scan_string p s')).
    { intros s' p Hs'. eapply within_mono; [apply IH; lia | lia]. }
    change (String.length (String c r)) with (S (String.length r)).
    remember (S (String.length r)) as N eqn:HN.
    assert (Hr : (String.length r < N)%nat) by lia. clear HN IH Hn.
    simpl. unfold Json.eof, Json.invalid.
    within_cases Hrec.
Qed.

Lemma span_digits_length (s : string) :
  (String.length (fst (Json.span_digits s)) + String.length (snd (Json.span_digits s))
   = String.length s)%nat.
Proof.
  induction s as [|c s IH]; [reflexivity |]. simpl.
  destruct (Json.is_digit c); [| reflexivity].
  destruct (Json.span_digits s) as [d r]. simpl in *. lia.
Qed.

Lemma scan_number_stages (s : string) :
  Json.scan_number s
  = let '(neg, s0) := number_sign s in
    let '(int, s1) := number_int s0 in
    match int with
    | EmptyString =>
        match s1 with
        | EmptyString => Json.eof
        | _ => Json.invalid "in numeric literal"
        end
    | _ =>
        match number_frac s1 with
        | Json.Ok f s2 =>
            match number_expo s2 with
            | Json.Ok x s3 =>
                let m := Json.digits_value 0 (int +:+ f) in
                Json.Ok (Num (if neg then (- m)%Z else m)
                           (x - Z.of_nat (String.length f))) s3
            | Json.Err e => Json.Err e
            | Json.Stuck => Json.Stuck
            end
        | Json.Err e => Json.Err e
        | Json.Stuck => Json.Stuck
        end
    end.
Proof. reflexivity. Qed.

Lemma number_sign_length (s : string) :
  (String.length (snd (number_sign s)) <= String.length s)%nat.
Proof.
  destruct s as [|c r]; [reflexivity |]. simpl.
  destruct (Json.code c =? 45)%N; simpl; lia.
Qed.

Lemma number_int_length (s0 : string) :
  (String.length (fst (number_int s0)) + String.length (snd (number_int s0))
   = String.length s0)%nat.
Proof.
  destruct s0 as [|c r]; [reflexivity |].
  unfold number_int. destruct (Json.code c =? 48)%N; [reflexivity |].
  apply span_digits_length.
Qed.

Lemma number_frac_within (s1 : string) :
  within (S (String.length s1)) (number_frac s1).
Proof.
  unfold number_frac, Json.eof, Json.invalid.
  destruct s1 as [|c r]; [apply within_Ok; simpl; lia |].
  destruct (Json.code c =? 46)%N; [| apply within_Ok; simpl; lia].
  pose proof (span_digits_length r) as Hspan.
  destruct (Json.span_digits r) as [f r']. simpl in Hspan.
  destruct f; [destruct r'; apply within_Err |].
  apply within_Ok. simpl in *. lia.
Qed.

Lemma number_expo_within (s2 : string) :
  within (S (String.length s2)) (number_expo s2).
Proof.
  unfold number_expo, Json.eof, Json.invalid.
  destruct s2 as [|c r]; [apply within_Ok; simpl; lia |].
  destruct (_ || _); [| apply within_Ok; simpl; lia].
  assert (Hsign : forall p : bool * string,
             (String.length (snd p) <= String.length r)%nat ->
             within (S (String.length (String c r)))
               (let '(eneg, r0) := p in
                let '(e, r') := Json.span_digits r0 in
                match e with
                | EmptyString =>
                    match r' with
                    | EmptyString => Json.Err (SyntaxError "unexpected end of JSON input")
                    | _ => Json.Err (SyntaxError ("invalid character " +:+ "in exponent of numeric literal"))
                    end
                | _ => Json.Ok (if eneg then (- Json.digits_value 0 e)%Z
                                else Json.digits_value 0 e) r'
                end)).
  { intros [eneg r0] Hle. simpl in Hle.
    pose proof (span_digits_length r0) as Hspan.
    destruct (Json.span_digits r0) as [e r']. simpl in Hspan.
    destruct e; [destruct r'; apply within_Err |].
    apply within_Ok. simpl in *. lia. }
  apply Hsign.
  destruct r as [|g r']; [reflexivity |].
  destruct (Json.code g =? 45)%N; [simpl; lia |].
  destruct (Json.code g =? 43)%N; simpl; lia.
Qed.

(** A number literal is never [Stuck] and takes at least one byte. *)
Lemma scan_number_within (s : string) :
  within (String.length s) (Json.scan_number s).
Proof.
  rewrite scan_number_stages.
  pose proof (number_sign_length s) as Hsign.
  destruct (number_sign s) as [neg s0]. simpl in Hsign.
  pose proof (number_int_length s0) as Hint.
  destruct (number_int s0) as [int s1]. simpl in Hint.
  destruct int as [|d int]; [destruct s1; apply within_Err |].
  destruct (number_frac_within s1) as [Hf1 Hf2].
  destruct (number_frac s1) as [f s2 | e |]; [| apply within_Err | contradiction].
  specialize (Hf2 _ _ eq_refl).
  destruct (number_expo_within s2) as [He1 He2].
  destruct (number_expo s2) as [x s3 | e |]; [| apply within_Err | contradiction].
  specialize (He2 _ _ eq_refl).
  apply within_Ok. simpl in *. lia.
Qed.

Lemma strip_prefix_length (p s r : string) :
  strip_prefix p s = Some r -> (String.length s = String.length p + String.length r)%nat.
Proof.
  intros Hs. apply strip_prefix_Some in Hs. subst s. apply length_append.
Qed.

Lemma scan_literal_within (name : string) (v : value) (s : string) :
  name <> EmptyString -> within (String.length s) (Json.scan_literal name v s).
Proof.
  intros Hname. unfold Json.scan_literal, Json.eof, Json.invalid.
  destruct (strip_prefix name s) as [r|] eqn:Hs.
  - apply strip_prefix_length in Hs. apply within_Ok.
    destruct name; [contradiction | simpl in *; lia].
  - destruct (_ && _); apply within_Err.
Qed.

Lemma within_value {A B : Type} (N : nat) (res : Json.result A) (f : A -> B) :
  within N res ->
  within N (match res with
            | Json.Ok a r => Json.Ok (f a) r
            | Json.Err e => Json.Err e
            | Json.Stuck => Json.Stuck
            end).
Proof.
  intros [H1 H2]. destruct res; [| apply within_Err | contradiction].
  apply within_Ok. eauto.
Qed.

(** With a budget of twice the length of the text and one more, a value
    is scanned to the end; the sequences inside a container need one more
    step. *)
Lemma scan_value_within (fuel : nat) :
  (forall depth s, (2 * String.length s + 1 <= fuel)%nat ->
     within (String.length s) (Json.scan_value fuel depth s))
  /\ (forall depth s acc, (2 * String.length s + 2 <= fuel)%nat ->
        within (String.length s) (Json.scan_elements fuel depth s acc))
  /\ (forall depth s acc, (2 * String.length s + 2 <= fuel)%nat ->
        within (String.length s) (Json.scan_members fuel depth s acc)).
Proof.
  induction fuel as [|fuel (IHv & IHe & IHm)].
  { split; [| split]; intros; lia. }
  split; [| split].
  - intros depth s Hfuel. simpl.
    pose proof (skip_space_length s) as Hs.
    destruct (Json.skip_space s) as [|c r]; [apply within_Err |].
    simpl in Hs.
    apply within_mono with (N := S (String.length r)); [| lia].
    pose proof (skip_space_length r) as Hr.
    unfold Json.invalid.
    destruct (_ =? 123)%N.
    { destruct (_ <? _)%N; [apply within_Err |].
      destruct (Json.skip_space r) as [|c' r'] eqn:Hsk; [apply within_Err |].
      simpl in Hr.
      destruct (_ =? 125)%N; [apply within_Ok; lia |].
      eapply within_mono; [apply IHm; lia | lia]. }
    destruct (_ =? 91)%N.
    { destruct (_ <? _)%N; [apply within_Err |].
      destruct (Json.skip_space r) as [|c' r'] eqn:Hsk; [apply within_Err |].
      simpl in Hr.
      destruct (_ =? 93)%N; [apply within_Ok; lia |].
      eapply within_mono; [apply IHe; lia | lia]. }
    destruct (_ =? 34)%N.
    { apply within_value.
      eapply within_mono; [apply (scan_string_within (String.length r)); lia | lia]. }
    destruct (_ =? 116)%N; [apply (scan_literal_within "true"); discriminate |].
    destruct (_ =? 102)%N; [apply (scan_literal_within "false"); discriminate |].
    destruct (_ =? 110)%N; [apply (scan_literal_within "null"); discriminate |].
    destruct (_ || _); [| apply within_Err].
    apply within_value. apply scan_number_within.
  - intros depth s acc Hfuel. simpl.
    destruct (IHv depth s ltac:(lia)) as [Hv1 Hv2].
    destruct (Json.scan_value fuel depth s) as [v r | e |];
      [| apply within_Err | contradiction].
    specialize (Hv2 _ _ eq_refl).
    pose proof (skip_space_length r) as Hr.
    destruct (Json.skip_space r) as [|c r']; [apply within_Err |].
    simpl in Hr. unfold Json.invalid.
    destruct (_ =? 44)%N; [eapply within_mono; [apply IHe; lia | lia] |].
    destruct (_ =? 93)%N; [apply within_Ok; lia | apply within_Err].
  - intros depth s acc Hfuel. simpl.
    pose proof (skip_space_length s) as Hs.
    destruct (Json.skip_space s) as [|q r]; [apply within_Err |].
    simpl in Hs. unfold Json.invalid.
    destruct (_ =? 34)%N; [| apply within_Err].
    destruct (scan_string_within (String.length r) r O ltac:(lia)) as [Hk1 Hk2].
    destruct (Json.scan_string 0 r) as [key r0 | e |];
      [| apply within_Err | contradiction].
    specialize (Hk2 _ _ eq_refl).
    pose proof (skip_space_length r0) as Hr0.
    destruct (Json.skip_space r0) as [|c r1]; [apply within_Err |].
    simpl in Hr0.
    destruct (_ =? 58)%N; [| apply within_Err].
    destruct (IHv depth r1 ltac:(lia)) as [Hv1 Hv2].
    destruct (Json.scan_value fuel depth r1) as [v r2 | e |];
      [| apply within_Err | contradiction].
    specialize (Hv2 _ _ eq_refl).
    pose proof (skip_space_length r2) as Hr2.
    destruct (Json.skip_space r2) as [|d r3]; [apply within_Err |].
    simpl in Hr2.
    destruct (_ =? 44)%N; [eapply within_mono; [apply IHm; lia | lia] |].
    destruct (_ =? 125)%N; [apply within_Ok; lia | apply within_Err].
Qed.

(** The budget that [Json.scan_text] gives the scanner is enough for
    every text. *)
Lemma scan_text_completes (s : string) : Json.scan_text s <> Json.Stuck.
Proof.
  unfold Json.scan_text.
  destruct (scan_value_within (2 * String.length s + 2)) as [Hv _].
  destruct (Hv 0%N s ltac:(lia)) as [H1 _].
  destruct (Json.scan_value _ 0 s) as [v r | e |]; [| discriminate | contradiction].
  destruct (Json.skip_space r); discriminate.
Qed.
